(** * PSD Procedural Logic Engine: the reconciliation engine and the registry store

    A shallow embedding of [src/store/ProceduralContext.tsx]: the pure merge
    function [reconcileTerminalState] and the React state updaters of
    [ProceduralStoreProvider], followed by the properties of the store that
    the specification states.

    Conventions of the embedding.
    - A TypeScript interface becomes a record.  An optional field [f?: T]
      becomes [option T]; [None] stands both for a missing key and for a key
      holding [undefined] (property reads and [JSON.stringify] do not
      distinguish the two).
    - A JavaScript string becomes a [string]; each character stands for one
      code unit, so the model covers the strings whose code units are below
      256.
    - [Record<string, V>] becomes [gmap string V].
    - [JSON.stringify(a) === JSON.stringify(b)] becomes decidable equality of
      the embedded values; the order of keys inside an object, which the
      serialisation is sensitive to, is not part of the record model.
    - A [setState(prev => ...)] updater becomes a function to [SetState]: it
      either hands back [prev] itself ([Bail], React sees no change) or a
      freshly built object ([Next]). *)

From Stdlib Require Import ZArith.
From stdpp Require Import gmap strings list fin_maps pretty.

Local Open Scope Z_scope.

(** Chained overrides read left to right, as the keys of an object literal
    and as consecutive [setState] calls. *)
Notation "p |> f" := (f p) (at level 45, left associativity, only parsing).

(** ** JavaScript primitives used by the store *)

Module JS.

(** [a < b] on two strings: the comparison walks both strings and decides
    at the first code unit where they differ; a proper prefix is smaller. *)
Fixpoint string_lt (a b : string) : bool :=
  match a, b with
  | _, EmptyString => false
  | EmptyString, String _ _ => true
  | String x a', String y b' =>
      match Ascii.compare x y with
      | Lt => true
      | Gt => false
      | Eq => string_lt a' b'
      end
  end.

(** Truthiness of an optional string: [undefined] and [''] are falsy. *)
Definition truthy_string (v : option string) : bool :=
  match v with
  | Some s => negb (String.eqb s EmptyString)
  | None => false
  end.

(** Truthiness of an optional boolean. *)
Definition truthy_bool (v : option bool) : bool :=
  match v with
  | Some b => b
  | None => false
  end.

(** [a || b] on optional strings. *)
Definition or_string (a b : option string) : option string :=
  if truthy_string a then a else b.

(** [a || b] where [a] is an optional object (an object is always truthy). *)
Definition or_object {A : Type} (a b : option A) : option A :=
  match a with
  | Some _ => a
  | None => b
  end.

(** [a || d] on an optional string with a default string, as in [x || '']. *)
Definition or_else (a : option string) (d : string) : string :=
  match a with
  | Some s => if String.eqb s EmptyString then d else s
  | None => d
  end.

(** [a ?? b] with a default that is always defined. *)
Definition nullish {A : Type} (a : option A) (b : A) : A :=
  match a with
  | Some x => x
  | None => b
  end.

(** [s.startsWith(p)]. *)
Definition startsWith (s p : string) : bool := String.prefix p s.

(** [xs.includes(x)] on an array of strings. *)
Definition includes (xs : list string) (x : string) : bool :=
  existsb (String.eqb x) xs.

End JS.

(** ** Value types *)

(** The types the store imports from ['../types'] and ['ag-psd'] and never
    looks into.  Those that are compared through their serialisation carry a
    decidable equality. *)
Class ExternalTypes := {
  Psd : Type;
  TemplateMetadata : Type;
  MappingContext : Type;
  LayoutStrategy : Type;
  FeedbackStrategy : Type;
  KnowledgeContext : Type;
  Metrics : Type;
  LayerData : Type;
  TemplateMetadata_eq_dec :: EqDecision TemplateMetadata;
  MappingContext_eq_dec :: EqDecision MappingContext;
  LayoutStrategy_eq_dec :: EqDecision LayoutStrategy;
  FeedbackStrategy_eq_dec :: EqDecision FeedbackStrategy;
  KnowledgeContext_eq_dec :: EqDecision KnowledgeContext;
  Metrics_eq_dec :: EqDecision Metrics;
  LayerData_eq_dec :: EqDecision LayerData;
}.

Section Store.

Context `{ET : ExternalTypes}.

(** Modelled from the spec: the declaration of a layer (['../types']) is not
    among the sources.  The store reads [l.id] and [l.type]; everything else
    a layer carries (coordinates, transforms) is [layer_data]. *)
Record Layer := mkLayer {
  layer_id : string;
  layer_type : string;
  layer_data : LayerData;
}.

(** Modelled from the spec: the declaration of [TransformedPayload]
    (['../types']) is not among the sources.  The fields are those that
    [ProceduralContext.tsx] reads or writes, with the optionality of section 3
    of the specification; [generationId] is a string token, as in the
    specification's examples (["g1"]). *)
Record TransformedPayload := mkPayload {
  status : string;
  generationId : option string;
  isConfirmed : option bool;
  isTransient : option bool;
  isSynthesizing : option bool;
  isPolished : option bool;
  requiresGeneration : option bool;
  isMandatory : option bool;
  generationAllowed : option bool;
  previewUrl : option string;
  sourceReference : option string;
  targetContainer : option string;
  sourceContainer : option string;
  metrics : option Metrics;
  layers : list Layer;
  directives : option (list string);
}.

#[export] Instance Layer_eq_dec : EqDecision Layer.
Proof. solve_decision. Defined.

#[export] Instance TransformedPayload_eq_dec : EqDecision TransformedPayload.
Proof. solve_decision. Defined.

(** *** Object spread with one overridden key

    [{ ...p, f: v }] copies every field of [p] and replaces [f].  One setter
    per key that the store overrides. *)

Definition set_status (v : string) (p : TransformedPayload) : TransformedPayload :=
  {| status := v; generationId := generationId p; isConfirmed := isConfirmed p;
     isTransient := isTransient p; isSynthesizing := isSynthesizing p; isPolished := isPolished p;
     requiresGeneration := requiresGeneration p; isMandatory := isMandatory p; generationAllowed := generationAllowed p;
     previewUrl := previewUrl p; sourceReference := sourceReference p; targetContainer := targetContainer p;
     sourceContainer := sourceContainer p; metrics := metrics p; layers := layers p;
     directives := directives p |}.

Definition set_generationId (v : option string) (p : TransformedPayload) : TransformedPayload :=
  {| status := status p; generationId := v; isConfirmed := isConfirmed p;
     isTransient := isTransient p; isSynthesizing := isSynthesizing p; isPolished := isPolished p;
     requiresGeneration := requiresGeneration p; isMandatory := isMandatory p; generationAllowed := generationAllowed p;
     previewUrl := previewUrl p; sourceReference := sourceReference p; targetContainer := targetContainer p;
     sourceContainer := sourceContainer p; metrics := metrics p; layers := layers p;
     directives := directives p |}.

Definition set_isConfirmed (v : option bool) (p : TransformedPayload) : TransformedPayload :=
  {| status := status p; generationId := generationId p; isConfirmed := v;
     isTransient := isTransient p; isSynthesizing := isSynthesizing p; isPolished := isPolished p;
     requiresGeneration := requiresGeneration p; isMandatory := isMandatory p; generationAllowed := generationAllowed p;
     previewUrl := previewUrl p; sourceReference := sourceReference p; targetContainer := targetContainer p;
     sourceContainer := sourceContainer p; metrics := metrics p; layers := layers p;
     directives := directives p |}.

Definition set_isTransient (v : option bool) (p : TransformedPayload) : TransformedPayload :=
  {| status := status p; generationId := generationId p; isConfirmed := isConfirmed p;
     isTransient := v; isSynthesizing := isSynthesizing p; isPolished := isPolished p;
     requiresGeneration := requiresGeneration p; isMandatory := isMandatory p; generationAllowed := generationAllowed p;
     previewUrl := previewUrl p; sourceReference := sourceReference p; targetContainer := targetContainer p;
     sourceContainer := sourceContainer p; metrics := metrics p; layers := layers p;
     directives := directives p |}.

Definition set_isSynthesizing (v : option bool) (p : TransformedPayload) : TransformedPayload :=
  {| status := status p; generationId := generationId p; isConfirmed := isConfirmed p;
     isTransient := isTransient p; isSynthesizing := v; isPolished := isPolished p;
     requiresGeneration := requiresGeneration p; isMandatory := isMandatory p; generationAllowed := generationAllowed p;
     previewUrl := previewUrl p; sourceReference := sourceReference p; targetContainer := targetContainer p;
     sourceContainer := sourceContainer p; metrics := metrics p; layers := layers p;
     directives := directives p |}.

Definition set_isPolished (v : option bool) (p : TransformedPayload) : TransformedPayload :=
  {| status := status p; generationId := generationId p; isConfirmed := isConfirmed p;
     isTransient := isTransient p; isSynthesizing := isSynthesizing p; isPolished := v;
     requiresGeneration := requiresGeneration p; isMandatory := isMandatory p; generationAllowed := generationAllowed p;
     previewUrl := previewUrl p; sourceReference := sourceReference p; targetContainer := targetContainer p;
     sourceContainer := sourceContainer p; metrics := metrics p; layers := layers p;
     directives := directives p |}.

Definition set_requiresGeneration (v : option bool) (p : TransformedPayload) : TransformedPayload :=
  {| status := status p; generationId := generationId p; isConfirmed := isConfirmed p;
     isTransient := isTransient p; isSynthesizing := isSynthesizing p; isPolished := isPolished p;
     requiresGeneration := v; isMandatory := isMandatory p; generationAllowed := generationAllowed p;
     previewUrl := previewUrl p; sourceReference := sourceReference p; targetContainer := targetContainer p;
     sourceContainer := sourceContainer p; metrics := metrics p; layers := layers p;
     directives := directives p |}.

Definition set_generationAllowed (v : option bool) (p : TransformedPayload) : TransformedPayload :=
  {| status := status p; generationId := generationId p; isConfirmed := isConfirmed p;
     isTransient := isTransient p; isSynthesizing := isSynthesizing p; isPolished := isPolished p;
     requiresGeneration := requiresGeneration p; isMandatory := isMandatory p; generationAllowed := v;
     previewUrl := previewUrl p; sourceReference := sourceReference p; targetContainer := targetContainer p;
     sourceContainer := sourceContainer p; metrics := metrics p; layers := layers p;
     directives := directives p |}.

Definition set_previewUrl (v : option string) (p : TransformedPayload) : TransformedPayload :=
  {| status := status p; generationId := generationId p; isConfirmed := isConfirmed p;
     isTransient := isTransient p; isSynthesizing := isSynthesizing p; isPolished := isPolished p;
     requiresGeneration := requiresGeneration p; isMandatory := isMandatory p; generationAllowed := generationAllowed p;
     previewUrl := v; sourceReference := sourceReference p; targetContainer := targetContainer p;
     sourceContainer := sourceContainer p; metrics := metrics p; layers := layers p;
     directives := directives p |}.

Definition set_sourceReference (v : option string) (p : TransformedPayload) : TransformedPayload :=
  {| status := status p; generationId := generationId p; isConfirmed := isConfirmed p;
     isTransient := isTransient p; isSynthesizing := isSynthesizing p; isPolished := isPolished p;
     requiresGeneration := requiresGeneration p; isMandatory := isMandatory p; generationAllowed := generationAllowed p;
     previewUrl := previewUrl p; sourceReference := v; targetContainer := targetContainer p;
     sourceContainer := sourceContainer p; metrics := metrics p; layers := layers p;
     directives := directives p |}.

Definition set_targetContainer (v : option string) (p : TransformedPayload) : TransformedPayload :=
  {| status := status p; generationId := generationId p; isConfirmed := isConfirmed p;
     isTransient := isTransient p; isSynthesizing := isSynthesizing p; isPolished := isPolished p;
     requiresGeneration := requiresGeneration p; isMandatory := isMandatory p; generationAllowed := generationAllowed p;
     previewUrl := previewUrl p; sourceReference := sourceReference p; targetContainer := v;
     sourceContainer := sourceContainer p; metrics := metrics p; layers := layers p;
     directives := directives p |}.

Definition set_metrics (v : option Metrics) (p : TransformedPayload) : TransformedPayload :=
  {| status := status p; generationId := generationId p; isConfirmed := isConfirmed p;
     isTransient := isTransient p; isSynthesizing := isSynthesizing p; isPolished := isPolished p;
     requiresGeneration := requiresGeneration p; isMandatory := isMandatory p; generationAllowed := generationAllowed p;
     previewUrl := previewUrl p; sourceReference := sourceReference p; targetContainer := targetContainer p;
     sourceContainer := sourceContainer p; metrics := v; layers := layers p;
     directives := directives p |}.

Definition set_layers (v : list Layer) (p : TransformedPayload) : TransformedPayload :=
  {| status := status p; generationId := generationId p; isConfirmed := isConfirmed p;
     isTransient := isTransient p; isSynthesizing := isSynthesizing p; isPolished := isPolished p;
     requiresGeneration := requiresGeneration p; isMandatory := isMandatory p; generationAllowed := generationAllowed p;
     previewUrl := previewUrl p; sourceReference := sourceReference p; targetContainer := targetContainer p;
     sourceContainer := sourceContainer p; metrics := metrics p; layers := v;
     directives := directives p |}.

(** ** The reconciliation engine *)

(** Rule 0, the reset: [status === 'idle' && !generationId]. *)
Definition isReset (incomingPayload : TransformedPayload) : bool :=
  String.eqb (status incomingPayload) "idle"
  && negb (JS.truthy_string (generationId incomingPayload)).

(** Rule 1, the hard stop: [generationAllowed === false]. *)
Definition isHardStop (incomingPayload : TransformedPayload) : bool :=
  match generationAllowed incomingPayload with
  | Some false => true
  | _ => false
  end.

(** [directives?.includes('MANDATORY_GEN_FILL')]. *)
Definition hasMandatoryDirective (incomingPayload : TransformedPayload) : bool :=
  match directives incomingPayload with
  | Some ds => JS.includes ds "MANDATORY_GEN_FILL"
  | None => false
  end.

(** [isMandatory || hasMandatoryDirective]. *)
Definition isForced (incomingPayload : TransformedPayload) : bool :=
  JS.truthy_bool (isMandatory incomingPayload) || hasMandatoryDirective incomingPayload.

(** Phase 4B, the mandatory auto-confirmation: [isForced && requiresGeneration]. *)
Definition isAutoConfirm (incomingPayload : TransformedPayload) : bool :=
  isForced incomingPayload && JS.truthy_bool (requiresGeneration incomingPayload).

(** Rule 2, the stale guard:
    [current?.generationId && incoming.generationId
     && incoming.generationId < current.generationId].
    The comparison is only reached when both tokens are truthy. *)
Definition isStale (incomingPayload : TransformedPayload)
    (currentPayload : option TransformedPayload) : bool :=
  JS.truthy_string (currentPayload ≫= generationId)
  && JS.truthy_string (generationId incomingPayload)
  && match generationId incomingPayload, currentPayload ≫= generationId with
     | Some inc, Some cur => JS.string_lt inc cur
     | _, _ => false
     end.

(** Rule 6, the geometric preservation:
    [!incoming.generationId && current?.generationId]. *)
Definition isLayoutUpdate (incomingPayload : TransformedPayload)
    (currentPayload : option TransformedPayload) : bool :=
  negb (JS.truthy_string (generationId incomingPayload))
  && JS.truthy_string (currentPayload ≫= generationId).

(** The filter of the hard stop:
    [l.type !== 'generative' || (l.id && !l.id.startsWith('gen-layer-'))]. *)
Definition keepsLayer (l : Layer) : bool :=
  negb (String.eqb (layer_type l) "generative")
  || (negb (String.eqb (layer_id l) EmptyString)
      && negb (JS.startsWith (layer_id l) "gen-layer-")).

(** The merge policy: the rules in the order of the source, each returning as
    soon as its condition holds. *)
Definition reconcileTerminalState (incomingPayload : TransformedPayload)
    (currentPayload : option TransformedPayload) : TransformedPayload :=
  (* 0. RESET LOGIC (Cascaded Flush) *)
  if isReset incomingPayload then
    incomingPayload
      |> set_previewUrl None
      |> set_isConfirmed (Some false)
      |> set_isTransient (Some false)
      |> set_isSynthesizing (Some false)
      |> set_isPolished (Some false)
      |> set_requiresGeneration (Some false)
      |> set_sourceReference None
  (* 1. GENERATIVE LOGIC GATE: HARD STOP *)
  else if isHardStop incomingPayload then
    incomingPayload
      |> set_previewUrl None
      |> set_isConfirmed (Some false)
      |> set_isTransient (Some false)
      |> set_isSynthesizing (Some false)
      |> set_requiresGeneration (Some false)
      |> set_metrics (metrics incomingPayload)
      |> set_layers (List.filter keepsLayer (layers incomingPayload))
  (* PHASE 4B: MANDATORY AUTO-CONFIRMATION *)
  else if isAutoConfirm incomingPayload then
    incomingPayload
      |> set_status "success"
      |> set_isConfirmed (Some true)
      |> set_isTransient (Some false)
      |> set_isSynthesizing (isSynthesizing incomingPayload)
      |> set_previewUrl
           (JS.or_string (previewUrl incomingPayload) (currentPayload ≫= previewUrl))
      |> set_sourceReference
           (JS.or_string (sourceReference incomingPayload) (currentPayload ≫= sourceReference))
      |> set_generationId
           (JS.or_string (generationId incomingPayload) (currentPayload ≫= generationId))
  (* 2. STALE GUARD *)
  else if isStale incomingPayload currentPayload then
    (* [return currentPayload]: the guard holds only when there is one *)
    default incomingPayload currentPayload
  (* 3. SANITATION (Geometric Reset) *)
  else if String.eqb (status incomingPayload) "idle" then
    incomingPayload
      |> set_previewUrl None
      |> set_isConfirmed (Some false)
      |> set_isTransient (Some false)
      |> set_isSynthesizing (Some false)
  (* 4. FLUSH PHASE (Start Synthesis) *)
  else if JS.truthy_bool (isSynthesizing incomingPayload) then
    default incomingPayload currentPayload
      |> set_isSynthesizing (Some true)
      |> set_previewUrl (currentPayload ≫= previewUrl)
      |> set_sourceReference
           (JS.or_string (sourceReference incomingPayload) (currentPayload ≫= sourceReference))
      |> set_targetContainer
           (Some (JS.or_else
                    (JS.or_string (targetContainer incomingPayload)
                                  (currentPayload ≫= targetContainer))
                    EmptyString))
      |> set_metrics (JS.or_object (metrics incomingPayload) (currentPayload ≫= metrics))
      |> set_generationId (currentPayload ≫= generationId)
      |> set_generationAllowed (Some true)
  else
    (* 5. REFINEMENT PERSISTENCE (State Guard) *)
    let isConfirmed0 :=
      JS.nullish (isConfirmed incomingPayload)
                 (JS.nullish (currentPayload ≫= isConfirmed) false) in
    let isConfirmed1 :=
      if JS.truthy_bool (isTransient incomingPayload) then false else isConfirmed0 in
    (* 6. GEOMETRIC PRESERVATION *)
    if isLayoutUpdate incomingPayload currentPayload then
      incomingPayload
        |> set_previewUrl (currentPayload ≫= previewUrl)
        |> set_generationId (currentPayload ≫= generationId)
        |> set_isSynthesizing (currentPayload ≫= isSynthesizing)
        |> set_isConfirmed (currentPayload ≫= isConfirmed)
        |> set_isTransient (currentPayload ≫= isTransient)
        |> set_sourceReference
             (JS.or_string (currentPayload ≫= sourceReference) (sourceReference incomingPayload))
        |> set_generationAllowed (Some true)
    (* 7. FINAL CONSTRUCTION *)
    else
      incomingPayload
        |> set_isConfirmed (Some isConfirmed1)
        |> set_sourceReference
             (JS.or_string (sourceReference incomingPayload) (currentPayload ≫= sourceReference))
        |> set_generationId
             (JS.or_string (generationId incomingPayload) (currentPayload ≫= generationId))
        |> set_generationAllowed (Some true).

(** ** The registry store *)

(** What a [setState(prev => ...)] updater hands back: [prev] itself, in which
    case React keeps the state and notifies nobody, or a new object. *)
Inductive SetState (A : Type) : Type :=
  | Bail : SetState A
  | Next (a : A) : SetState A.
Global Arguments Bail {A}.
Global Arguments Next {A} a.

(** The state after the updater has run. *)
Definition commit {A : Type} (prev : A) (u : SetState A) : A :=
  match u with
  | Bail => prev
  | Next a => a
  end.

(** Whether the updater signals a change to the subscribers of the state. *)
Definition notifies {A : Type} (u : SetState A) : bool :=
  match u with
  | Bail => false
  | Next _ => true
  end.

(** [interface ProceduralState]: one [useState] cell per field. *)
Record ProceduralState := mkState {
  psdRegistry : gmap string Psd;
  templateRegistry : gmap string TemplateMetadata;
  resolvedRegistry : gmap string (gmap string MappingContext);
  payloadRegistry : gmap string (gmap string TransformedPayload);
  reviewerRegistry : gmap string (gmap string TransformedPayload);
  previewRegistry : gmap string (gmap string string);
  analysisRegistry : gmap string (gmap string LayoutStrategy);
  feedbackRegistry : gmap string (gmap string FeedbackStrategy);
  knowledgeRegistry : gmap string KnowledgeContext;
  globalVersion : Z;
}.

(** The initial values of the [useState] cells. *)
Definition initialState : ProceduralState :=
  {| psdRegistry := ∅; templateRegistry := ∅; resolvedRegistry := ∅;
     payloadRegistry := ∅; reviewerRegistry := ∅; previewRegistry := ∅;
     analysisRegistry := ∅; feedbackRegistry := ∅; knowledgeRegistry := ∅;
     globalVersion := 0 |}.

(** [setX(updater)]: run the updater of one cell on its current value. *)
Definition setPsdRegistry (u : gmap string Psd → SetState (gmap string Psd))
    (st : ProceduralState) : ProceduralState :=
  {| psdRegistry := commit (psdRegistry st) (u (psdRegistry st)); templateRegistry := templateRegistry st;
     resolvedRegistry := resolvedRegistry st; payloadRegistry := payloadRegistry st;
     reviewerRegistry := reviewerRegistry st; previewRegistry := previewRegistry st;
     analysisRegistry := analysisRegistry st; feedbackRegistry := feedbackRegistry st;
     knowledgeRegistry := knowledgeRegistry st; globalVersion := globalVersion st |}.

Definition setTemplateRegistry (u : gmap string TemplateMetadata → SetState (gmap string TemplateMetadata))
    (st : ProceduralState) : ProceduralState :=
  {| psdRegistry := psdRegistry st; templateRegistry := commit (templateRegistry st) (u (templateRegistry st));
     resolvedRegistry := resolvedRegistry st; payloadRegistry := payloadRegistry st;
     reviewerRegistry := reviewerRegistry st; previewRegistry := previewRegistry st;
     analysisRegistry := analysisRegistry st; feedbackRegistry := feedbackRegistry st;
     knowledgeRegistry := knowledgeRegistry st; globalVersion := globalVersion st |}.

Definition setResolvedRegistry (u : gmap string (gmap string MappingContext) → SetState (gmap string (gmap string MappingContext)))
    (st : ProceduralState) : ProceduralState :=
  {| psdRegistry := psdRegistry st; templateRegistry := templateRegistry st; resolvedRegistry := commit (resolvedRegistry st) (u (resolvedRegistry st));
     payloadRegistry := payloadRegistry st; reviewerRegistry := reviewerRegistry st;
     previewRegistry := previewRegistry st; analysisRegistry := analysisRegistry st;
     feedbackRegistry := feedbackRegistry st; knowledgeRegistry := knowledgeRegistry st;
     globalVersion := globalVersion st |}.

Definition setPayloadRegistry (u : gmap string (gmap string TransformedPayload) → SetState (gmap string (gmap string TransformedPayload)))
    (st : ProceduralState) : ProceduralState :=
  {| psdRegistry := psdRegistry st; templateRegistry := templateRegistry st; resolvedRegistry := resolvedRegistry st;
     payloadRegistry := commit (payloadRegistry st) (u (payloadRegistry st));
     reviewerRegistry := reviewerRegistry st; previewRegistry := previewRegistry st;
     analysisRegistry := analysisRegistry st; feedbackRegistry := feedbackRegistry st;
     knowledgeRegistry := knowledgeRegistry st; globalVersion := globalVersion st |}.

Definition setReviewerRegistry (u : gmap string (gmap string TransformedPayload) → SetState (gmap string (gmap string TransformedPayload)))
    (st : ProceduralState) : ProceduralState :=
  {| psdRegistry := psdRegistry st; templateRegistry := templateRegistry st; resolvedRegistry := resolvedRegistry st;
     payloadRegistry := payloadRegistry st; reviewerRegistry := commit (reviewerRegistry st) (u (reviewerRegistry st));
     previewRegistry := previewRegistry st; analysisRegistry := analysisRegistry st;
     feedbackRegistry := feedbackRegistry st; knowledgeRegistry := knowledgeRegistry st;
     globalVersion := globalVersion st |}.

Definition setPreviewRegistry (u : gmap string (gmap string string) → SetState (gmap string (gmap string string)))
    (st : ProceduralState) : ProceduralState :=
  {| psdRegistry := psdRegistry st; templateRegistry := templateRegistry st; resolvedRegistry := resolvedRegistry st;
     payloadRegistry := payloadRegistry st; reviewerRegistry := reviewerRegistry st;
     previewRegistry := commit (previewRegistry st) (u (previewRegistry st));
     analysisRegistry := analysisRegistry st; feedbackRegistry := feedbackRegistry st;
     knowledgeRegistry := knowledgeRegistry st; globalVersion := globalVersion st |}.

Definition setAnalysisRegistry (u : gmap string (gmap string LayoutStrategy) → SetState (gmap string (gmap string LayoutStrategy)))
    (st : ProceduralState) : ProceduralState :=
  {| psdRegistry := psdRegistry st; templateRegistry := templateRegistry st; resolvedRegistry := resolvedRegistry st;
     payloadRegistry := payloadRegistry st; reviewerRegistry := reviewerRegistry st;
     previewRegistry := previewRegistry st; analysisRegistry := commit (analysisRegistry st) (u (analysisRegistry st));
     feedbackRegistry := feedbackRegistry st; knowledgeRegistry := knowledgeRegistry st;
     globalVersion := globalVersion st |}.

Definition setFeedbackRegistry (u : gmap string (gmap string FeedbackStrategy) → SetState (gmap string (gmap string FeedbackStrategy)))
    (st : ProceduralState) : ProceduralState :=
  {| psdRegistry := psdRegistry st; templateRegistry := templateRegistry st; resolvedRegistry := resolvedRegistry st;
     payloadRegistry := payloadRegistry st; reviewerRegistry := reviewerRegistry st;
     previewRegistry := previewRegistry st; analysisRegistry := analysisRegistry st;
     feedbackRegistry := commit (feedbackRegistry st) (u (feedbackRegistry st));
     knowledgeRegistry := knowledgeRegistry st; globalVersion := globalVersion st |}.

Definition setKnowledgeRegistry (u : gmap string KnowledgeContext → SetState (gmap string KnowledgeContext))
    (st : ProceduralState) : ProceduralState :=
  {| psdRegistry := psdRegistry st; templateRegistry := templateRegistry st; resolvedRegistry := resolvedRegistry st;
     payloadRegistry := payloadRegistry st; reviewerRegistry := reviewerRegistry st;
     previewRegistry := previewRegistry st; analysisRegistry := analysisRegistry st;
     feedbackRegistry := feedbackRegistry st; knowledgeRegistry := commit (knowledgeRegistry st) (u (knowledgeRegistry st));
     globalVersion := globalVersion st |}.

Definition setGlobalVersion (u : Z → SetState (Z))
    (st : ProceduralState) : ProceduralState :=
  {| psdRegistry := psdRegistry st; templateRegistry := templateRegistry st; resolvedRegistry := resolvedRegistry st;
     payloadRegistry := payloadRegistry st; reviewerRegistry := reviewerRegistry st;
     previewRegistry := previewRegistry st; analysisRegistry := analysisRegistry st;
     feedbackRegistry := feedbackRegistry st; knowledgeRegistry := knowledgeRegistry st;
     globalVersion := commit (globalVersion st) (u (globalVersion st)) |}.

(** *** Updaters of the node-scoped registries *)

(** [registerPsd]: no comparison, the entry is always rebuilt. *)
Definition registerPsd_updater (nodeId : string) (psd : Psd)
    (prev : gmap string Psd) : SetState (gmap string Psd) :=
  Next (<[nodeId := psd]> prev).

(** [registerTemplate]: the reference test [prev[nodeId] === template] is
    subsumed by the comparison of the serialisations. *)
Definition registerTemplate_updater (nodeId : string) (template : TemplateMetadata)
    (prev : gmap string TemplateMetadata) : SetState (gmap string TemplateMetadata) :=
  if decide (prev !! nodeId = Some template) then Bail
  else Next (<[nodeId := template]> prev).

Definition registerKnowledge_updater (nodeId : string) (context : KnowledgeContext)
    (prev : gmap string KnowledgeContext) : SetState (gmap string KnowledgeContext) :=
  if decide (prev !! nodeId = Some context) then Bail
  else Next (<[nodeId := context]> prev).

(** *** Updaters of the slot-scoped registries *)

(** The shape shared by [registerResolved], [registerAnalysis] and
    [registerFeedback]: [nodeRecord = prev[nodeId] || {}], bail out when the
    stored value is the candidate, else rebuild the node record. *)
Definition registerSlot_updater {V : Type} `{EqDecision V}
    (nodeId handleId : string) (value : V)
    (prev : gmap string (gmap string V)) : SetState (gmap string (gmap string V)) :=
  let nodeRecord := default ∅ (prev !! nodeId) in
  let current := nodeRecord !! handleId in
  if decide (current = Some value) then Bail
  else Next (<[nodeId := <[handleId := value]> nodeRecord]> prev).

Definition registerResolved_updater := registerSlot_updater (V := MappingContext).
Definition registerAnalysis_updater := registerSlot_updater (V := LayoutStrategy).
Definition registerFeedback_updater := registerSlot_updater (V := FeedbackStrategy).

(** The first [setState] of [registerPreviewPayload]: the rendered image. *)
Definition registerPreview_updater := registerSlot_updater (V := string).

(** The tail shared by every payload writer: compare the stored payload with
    the reconciled one, bail out when they serialise alike, else store the
    reconciled payload. *)
Definition storeReconciled (nodeId handleId : string)
    (nodeRecord : gmap string TransformedPayload)
    (currentPayload : option TransformedPayload)
    (reconciledPayload : TransformedPayload)
    (prev : gmap string (gmap string TransformedPayload))
    : SetState (gmap string (gmap string TransformedPayload)) :=
  if decide (currentPayload = Some reconciledPayload) then Bail
  else Next (<[nodeId := <[handleId := reconciledPayload]> nodeRecord]> prev).

(** The candidate of [registerPayload]: a copy of the payload, gated when the
    master override is [false]. *)
Definition effectivePayload (payload : TransformedPayload)
    (masterOverride : option bool) : TransformedPayload :=
  match masterOverride with
  | Some false => payload |> set_generationAllowed (Some false)
  | _ => payload
  end.

Definition registerPayload_updater (nodeId handleId : string)
    (payload : TransformedPayload) (masterOverride : option bool)
    (prev : gmap string (gmap string TransformedPayload))
    : SetState (gmap string (gmap string TransformedPayload)) :=
  let nodeRecord := default ∅ (prev !! nodeId) in
  let currentPayload := nodeRecord !! handleId in
  let reconciledPayload :=
    reconcileTerminalState (effectivePayload payload masterOverride) currentPayload in
  storeReconciled nodeId handleId nodeRecord currentPayload reconciledPayload prev.

(** [registerReviewerPayload], and the second [setState] of
    [registerPreviewPayload], which has the same body. *)
Definition registerReviewerPayload_updater (nodeId handleId : string)
    (payload : TransformedPayload)
    (prev : gmap string (gmap string TransformedPayload))
    : SetState (gmap string (gmap string TransformedPayload)) :=
  let nodeRecord := default ∅ (prev !! nodeId) in
  let currentPayload := nodeRecord !! handleId in
  let reconciledPayload :=
    reconcileTerminalState (payload |> set_isPolished (Some true)) currentPayload in
  storeReconciled nodeId handleId nodeRecord currentPayload reconciledPayload prev.

Definition updatePreview_updater (nodeId handleId : string) (url : string)
    (prev : gmap string (gmap string TransformedPayload))
    : SetState (gmap string (gmap string TransformedPayload)) :=
  match prev !! nodeId with
  | None => Bail
  | Some nodeRecord =>
      match nodeRecord !! handleId with
      | None => Bail
      | Some currentPayload =>
          if decide (previewUrl currentPayload = Some url) then Bail
          else Next (<[nodeId :=
                       <[handleId := currentPayload |> set_previewUrl (Some url)]> nodeRecord]>
                     prev)
      end
  end.

Definition clearFeedback_updater (nodeId handleId : string)
    (prev : gmap string (gmap string FeedbackStrategy))
    : SetState (gmap string (gmap string FeedbackStrategy)) :=
  match prev !! nodeId with
  | None => Bail
  | Some nodeRecord =>
      match nodeRecord !! handleId with
      | None => Bail
      | Some _ => Next (<[nodeId := delete handleId nodeRecord]> prev)
      end
  end.

(** *** [updatePayload] and [Partial<TransformedPayload>] *)

(** A partial payload: for every key, [None] when the object has no such key
    and [Some v] when it carries the key with value [v] (which for an optional
    field may itself be [undefined]). *)
Record PartialPayload := mkPartial {
  partial_status : option (string);
  partial_generationId : option (option string);
  partial_isConfirmed : option (option bool);
  partial_isTransient : option (option bool);
  partial_isSynthesizing : option (option bool);
  partial_isPolished : option (option bool);
  partial_requiresGeneration : option (option bool);
  partial_isMandatory : option (option bool);
  partial_generationAllowed : option (option bool);
  partial_previewUrl : option (option string);
  partial_sourceReference : option (option string);
  partial_targetContainer : option (option string);
  partial_sourceContainer : option (option string);
  partial_metrics : option (option Metrics);
  partial_layers : option (list Layer);
  partial_directives : option (option (list string));
}.

(** [{ ...currentPayload, ...partial }]: the keys that [partial] carries win. *)
Definition mergePartial (current : TransformedPayload) (partial : PartialPayload)
    : TransformedPayload :=
  {| status := default (status current) (partial_status partial);
     generationId := default (generationId current) (partial_generationId partial);
     isConfirmed := default (isConfirmed current) (partial_isConfirmed partial);
     isTransient := default (isTransient current) (partial_isTransient partial);
     isSynthesizing := default (isSynthesizing current) (partial_isSynthesizing partial);
     isPolished := default (isPolished current) (partial_isPolished partial);
     requiresGeneration := default (requiresGeneration current) (partial_requiresGeneration partial);
     isMandatory := default (isMandatory current) (partial_isMandatory partial);
     generationAllowed := default (generationAllowed current) (partial_generationAllowed partial);
     previewUrl := default (previewUrl current) (partial_previewUrl partial);
     sourceReference := default (sourceReference current) (partial_sourceReference partial);
     targetContainer := default (targetContainer current) (partial_targetContainer partial);
     sourceContainer := default (sourceContainer current) (partial_sourceContainer partial);
     metrics := default (metrics current) (partial_metrics partial);
     layers := default (layers current) (partial_layers partial);
     directives := default (directives current) (partial_directives partial) |}.

(** [partial as TransformedPayload]: the cast is unchecked.  It yields a
    payload of the declared type exactly when [partial] carries the two keys
    the type requires, [status] and [layers]; the other keys read [undefined]
    when missing. *)
Definition asPayload (partial : PartialPayload) : option TransformedPayload :=
  match partial_status partial, partial_layers partial with
  | Some status0, Some layers0 =>
      Some {| status := status0;
           generationId := mjoin (partial_generationId partial);
           isConfirmed := mjoin (partial_isConfirmed partial);
           isTransient := mjoin (partial_isTransient partial);
           isSynthesizing := mjoin (partial_isSynthesizing partial);
           isPolished := mjoin (partial_isPolished partial);
           requiresGeneration := mjoin (partial_requiresGeneration partial);
           isMandatory := mjoin (partial_isMandatory partial);
           generationAllowed := mjoin (partial_generationAllowed partial);
           previewUrl := mjoin (partial_previewUrl partial);
           sourceReference := mjoin (partial_sourceReference partial);
           targetContainer := mjoin (partial_targetContainer partial);
           sourceContainer := mjoin (partial_sourceContainer partial);
           metrics := mjoin (partial_metrics partial);
           layers := layers0;
           directives := mjoin (partial_directives partial) |}
  | _, _ => None
  end.

(** The updater of [updatePayload].  The result is [None] when the cast of
    the no-current branch leaves the declared type of payloads; the typed
    model says nothing about that call. *)
Definition updatePayload_updater (nodeId handleId : string) (partial : PartialPayload)
    (prev : gmap string (gmap string TransformedPayload))
    : option (SetState (gmap string (gmap string TransformedPayload))) :=
  let nodeRecord := default ∅ (prev !! nodeId) in
  let currentPayload := nodeRecord !! handleId in
  match currentPayload with
  | None =>
      if negb (JS.truthy_string (mjoin (partial_sourceContainer partial)))
         && negb (JS.truthy_string (mjoin (partial_previewUrl partial)))
      then Some Bail
      else
        mergedPayload ← asPayload partial;
        Some (storeReconciled nodeId handleId nodeRecord currentPayload
                (reconcileTerminalState mergedPayload currentPayload) prev)
  | Some current =>
      let mergedPayload := mergePartial current partial in
      Some (storeReconciled nodeId handleId nodeRecord currentPayload
              (reconcileTerminalState mergedPayload currentPayload) prev)
  end.

(** *** Teardown updaters *)

(** [const { [nodeId]: _, ...rest } = prev; return rest]. *)
Definition dropNode_updater {V : Type} (nodeId : string)
    (prev : gmap string V) : SetState (gmap string V) :=
  Next (delete nodeId prev).

(** The same behind [if (!prev[nodeId]) return prev], as the knowledge and
    preview registries have it. *)
Definition dropNodeIfPresent_updater {V : Type} (nodeId : string)
    (prev : gmap string V) : SetState (gmap string V) :=
  match prev !! nodeId with
  | None => Bail
  | Some _ => Next (delete nodeId prev)
  end.

(** [clearEntry] of [flushPipelineInstance]. *)
Definition clearEntry_updater {V : Type} (nodeId handleId : string)
    (prev : gmap string (gmap string V)) : SetState (gmap string (gmap string V)) :=
  match prev !! nodeId with
  | None => Bail
  | Some nodeRecord => Next (<[nodeId := delete handleId nodeRecord]> prev)
  end.

(** *** The entry points of the store, as state transformers *)

Definition registerPsd (nodeId : string) (psd : Psd) (st : ProceduralState) :=
  st |> setPsdRegistry (registerPsd_updater nodeId psd).

Definition registerTemplate (nodeId : string) (template : TemplateMetadata)
    (st : ProceduralState) :=
  st |> setTemplateRegistry (registerTemplate_updater nodeId template).

Definition registerResolved (nodeId handleId : string) (context : MappingContext)
    (st : ProceduralState) :=
  st |> setResolvedRegistry (registerResolved_updater nodeId handleId context).

Definition registerPayload (nodeId handleId : string) (payload : TransformedPayload)
    (masterOverride : option bool) (st : ProceduralState) :=
  st |> setPayloadRegistry (registerPayload_updater nodeId handleId payload masterOverride).

Definition registerReviewerPayload (nodeId handleId : string)
    (payload : TransformedPayload) (st : ProceduralState) :=
  st |> setReviewerRegistry (registerReviewerPayload_updater nodeId handleId payload).

Definition registerPreviewPayload (nodeId handleId : string)
    (payload : TransformedPayload) (renderUrl : string) (st : ProceduralState) :=
  st |> setPreviewRegistry (registerPreview_updater nodeId handleId renderUrl)
     |> setReviewerRegistry (registerReviewerPayload_updater nodeId handleId payload).

Definition updatePayload (nodeId handleId : string) (partial : PartialPayload)
    (st : ProceduralState) : option ProceduralState :=
  u ← updatePayload_updater nodeId handleId partial (payloadRegistry st);
  Some (st |> setPayloadRegistry (λ _, u)).

Definition registerAnalysis (nodeId handleId : string) (strategy : LayoutStrategy)
    (st : ProceduralState) :=
  st |> setAnalysisRegistry (registerAnalysis_updater nodeId handleId strategy).

Definition registerFeedback (nodeId handleId : string) (strategy : FeedbackStrategy)
    (st : ProceduralState) :=
  st |> setFeedbackRegistry (registerFeedback_updater nodeId handleId strategy).

Definition clearFeedback (nodeId handleId : string) (st : ProceduralState) :=
  st |> setFeedbackRegistry (clearFeedback_updater nodeId handleId).

Definition registerKnowledge (nodeId : string) (context : KnowledgeContext)
    (st : ProceduralState) :=
  st |> setKnowledgeRegistry (registerKnowledge_updater nodeId context).

Definition updatePreview (nodeId handleId : string) (url : string)
    (st : ProceduralState) :=
  st |> setPayloadRegistry (updatePreview_updater nodeId handleId url).

Definition unregisterNode (nodeId : string) (st : ProceduralState) :=
  st |> setPsdRegistry (dropNode_updater nodeId)
     |> setTemplateRegistry (dropNode_updater nodeId)
     |> setResolvedRegistry (dropNode_updater nodeId)
     |> setPayloadRegistry (dropNode_updater nodeId)
     |> setReviewerRegistry (dropNode_updater nodeId)
     |> setAnalysisRegistry (dropNode_updater nodeId)
     |> setFeedbackRegistry (dropNode_updater nodeId)
     |> setKnowledgeRegistry (dropNodeIfPresent_updater nodeId)
     |> setPreviewRegistry (dropNodeIfPresent_updater nodeId)
     |> setGlobalVersion (λ v, Next (v + 1)).

Definition flushPipelineInstance (nodeId handleId : string) (st : ProceduralState) :=
  st |> setResolvedRegistry (clearEntry_updater nodeId handleId)
     |> setPayloadRegistry (clearEntry_updater nodeId handleId)
     |> setReviewerRegistry (clearEntry_updater nodeId handleId)
     |> setPreviewRegistry (clearEntry_updater nodeId handleId)
     |> setAnalysisRegistry (clearEntry_updater nodeId handleId)
     |> setFeedbackRegistry (clearEntry_updater nodeId handleId).

Definition triggerGlobalRefresh (st : ProceduralState) :=
  st |> setGlobalVersion (λ v, Next (v + 1)).

(** *** Commands and runs *)

(** One constructor per entry point of [ProceduralContextType]. *)
Inductive Command : Type :=
  | RegisterPsd (nodeId : string) (psd : Psd)
  | RegisterTemplate (nodeId : string) (template : TemplateMetadata)
  | RegisterResolved (nodeId handleId : string) (context : MappingContext)
  | RegisterPayload (nodeId handleId : string) (payload : TransformedPayload)
      (masterOverride : option bool)
  | RegisterReviewerPayload (nodeId handleId : string) (payload : TransformedPayload)
  | RegisterPreviewPayload (nodeId handleId : string) (payload : TransformedPayload)
      (renderUrl : string)
  | UpdatePayload (nodeId handleId : string) (partial : PartialPayload)
  | RegisterAnalysis (nodeId handleId : string) (strategy : LayoutStrategy)
  | RegisterFeedback (nodeId handleId : string) (strategy : FeedbackStrategy)
  | ClearFeedback (nodeId handleId : string)
  | RegisterKnowledge (nodeId : string) (context : KnowledgeContext)
  | UpdatePreview (nodeId handleId : string) (url : string)
  | UnregisterNode (nodeId : string)
  | FlushPipelineInstance (nodeId handleId : string)
  | TriggerGlobalRefresh.

Definition step (st : ProceduralState) (c : Command) : option ProceduralState :=
  match c with
  | RegisterPsd n psd => Some (registerPsd n psd st)
  | RegisterTemplate n t => Some (registerTemplate n t st)
  | RegisterResolved n h ctx => Some (registerResolved n h ctx st)
  | RegisterPayload n h p mo => Some (registerPayload n h p mo st)
  | RegisterReviewerPayload n h p => Some (registerReviewerPayload n h p st)
  | RegisterPreviewPayload n h p url => Some (registerPreviewPayload n h p url st)
  | UpdatePayload n h partial => updatePayload n h partial st
  | RegisterAnalysis n h x => Some (registerAnalysis n h x st)
  | RegisterFeedback n h x => Some (registerFeedback n h x st)
  | ClearFeedback n h => Some (clearFeedback n h st)
  | RegisterKnowledge n ctx => Some (registerKnowledge n ctx st)
  | UpdatePreview n h url => Some (updatePreview n h url st)
  | UnregisterNode n => Some (unregisterNode n st)
  | FlushPipelineInstance n h => Some (flushPipelineInstance n h st)
  | TriggerGlobalRefresh => Some (triggerGlobalRefresh st)
  end.

(** The states the store can be in: the initial one and whatever a command
    leads to. *)
Inductive reachable : ProceduralState → Prop :=
  | reachable_init : reachable initialState
  | reachable_step st c st' :
      reachable st → step st c = Some st' → reachable st'.

(** Run a list of commands from a state. *)
Fixpoint run (st : ProceduralState) (cs : list Command) : option ProceduralState :=
  match cs with
  | [] => Some st
  | c :: cs' => st' ← step st c; run st' cs'
  end.

(** *** The query facade *)

(** [registry[nodeId]?.[handleId]]. *)
Definition slot {V : Type} (registry : gmap string (gmap string V))
    (nodeId handleId : string) : option V :=
  registry !! nodeId ≫= (.!! handleId).

End Store.

(** ** Concrete payloads and states *)

(** The opaque types instantiated for the worked examples. *)
Definition sampleTypes : ExternalTypes :=
  {| Psd := unit; TemplateMetadata := unit; MappingContext := unit;
     LayoutStrategy := unit; FeedbackStrategy := unit; KnowledgeContext := unit;
     Metrics := unit; LayerData := unit |}.

Module Samples.

#[local] Existing Instance sampleTypes.

(** A payload with every optional key missing. *)
Definition bare (st : string) : TransformedPayload :=
  {| status := st; generationId := None; isConfirmed := None; isTransient := None;
     isSynthesizing := None; isPolished := None; requiresGeneration := None;
     isMandatory := None; generationAllowed := None; previewUrl := None;
     sourceReference := None; targetContainer := Some "hero"; sourceContainer := Some "src";
     metrics := Some tt; layers := []; directives := None |}.

(** A successful payload produced by generation run [g]. *)
Definition generated (g : string) : TransformedPayload :=
  bare "success" |> set_generationId (Some g).

(** A pending payload of run [g] that a mandatory directive forces through. *)
Definition mandatory (g : string) : TransformedPayload :=
  {| status := "pending"; generationId := Some g; isConfirmed := None;
     isTransient := None; isSynthesizing := None; isPolished := None;
     requiresGeneration := Some true; isMandatory := Some true;
     generationAllowed := None; previewUrl := None; sourceReference := None;
     targetContainer := Some "hero"; sourceContainer := Some "src";
     metrics := Some tt; layers := []; directives := None |}.

(** A payload of run [g] with generation switched off for its instance. *)
Definition gated (g : string) : TransformedPayload :=
  generated g |> set_generationAllowed (Some false).

(** The layers of the gate-filtering example of the specification. *)
Definition swapped : Layer :=
  {| layer_id := "0.3.1"; layer_type := "generative"; layer_data := tt |}.
Definition additive : Layer :=
  {| layer_id := "gen-layer-9"; layer_type := "generative"; layer_data := tt |}.
Definition background : Layer :=
  {| layer_id := "bg"; layer_type := "pixel"; layer_data := tt |}.

(** A generative layer whose id is the empty string. *)
Definition anonymous : Layer :=
  {| layer_id := EmptyString; layer_type := "generative"; layer_data := tt |}.

(** A store holding one payload of run [g] at the address (n, h). *)
Definition holding (g : string) : ProceduralState :=
  registerPayload "n" "h" (generated g) None initialState.

(** A store whose address (n, h) was reset by an idle payload. *)
Definition afterReset : ProceduralState :=
  registerPayload "n" "h" (bare "idle") None initialState.

(** A store whose reviewer registry received an idle payload at (n, h). *)
Definition reviewedReset : ProceduralState :=
  registerReviewerPayload "n" "h" (bare "idle") initialState.

(** A store whose reviewer registry received a generated payload at (n, h). *)
Definition reviewed : ProceduralState :=
  registerReviewerPayload "n" "h" (generated "g1") initialState.

(** A store with one entry in every registry under node n. *)
Definition populated : ProceduralState :=
  initialState
    |> registerPsd "n" tt
    |> registerTemplate "n" tt
    |> registerKnowledge "n" tt
    |> registerResolved "n" "h" tt
    |> registerResolved "n" "h2" tt
    |> registerResolved "m" "h" tt
    |> registerPayload "n" "h" (generated "g1") None
    |> registerPayload "n" "h2" (generated "g2") None
    |> registerPreviewPayload "n" "h" (generated "g1") "blob:1"
    |> registerAnalysis "n" "h" tt
    |> registerFeedback "n" "h" tt.

(** A store that started a synthesis at (n, h) right after a reset. *)
Definition synthesizingAfterReset : ProceduralState :=
  afterReset
    |> registerPayload "n" "h" (bare "pending" |> set_isSynthesizing (Some true)) None.

(** What [synthesizingAfterReset] holds at (n, h): the reset payload with the
    synthesis flag raised and generation allowed. *)
Definition startedOnReset : TransformedPayload :=
  {| status := "idle"; generationId := None; isConfirmed := Some false;
     isTransient := Some false; isSynthesizing := Some true; isPolished := Some false;
     requiresGeneration := Some false; isMandatory := None;
     generationAllowed := Some true; previewUrl := None; sourceReference := None;
     targetContainer := Some "hero"; sourceContainer := Some "src";
     metrics := Some tt; layers := []; directives := None |}.

(** The preview of the reset slot replaced behind the engine's back. *)
Definition previewedAfterReset : ProceduralState :=
  afterReset |> updatePreview "n" "h" "blob:1".

(** A gated write of run 1 over the stored run 2. *)
Definition gatedWrite : Command :=
  RegisterPayload "n" "h" (generated "1") (Some false).

End Samples.

(** ** Vocabulary of the specification *)

Section Vocabulary.

Context `{ET : ExternalTypes}.

(** A layer of type [generative]. *)
Definition isGenerative (l : Layer) : bool := String.eqb (layer_type l) "generative".

(** A layer whose id carries the reserved prefix of additive synthetic layers. *)
Definition hasSyntheticId (l : Layer) : bool := String.prefix "gen-layer-" (layer_id l).

(** A layer without an id to speak of. *)
Definition hasNoId (l : Layer) : bool := String.eqb (layer_id l) EmptyString.

(** The layers the gate is said to retain: all but the generative layers with
    a synthetic id. *)
Definition retainedAsSpecified (l : Layer) : bool :=
  negb (isGenerative l && hasSyntheticId l).

(** The layers the gate retains: all but the generative layers whose id is
    synthetic or empty. *)
Definition retainedByGate (l : Layer) : bool :=
  negb (isGenerative l && (hasSyntheticId l || hasNoId l)).

(** The payload a command hands to the engine for the payload registry, if
    it is one of the two writers that reconcile there: the gated copy for
    [registerPayload], the merge (or the cast) for [updatePayload]. *)
Definition writeCandidate (st : ProceduralState) (c : Command)
    : option TransformedPayload :=
  match c with
  | RegisterPayload _ _ payload masterOverride =>
      Some (effectivePayload payload masterOverride)
  | UpdatePayload n h partial =>
      match slot (payloadRegistry st) n h with
      | Some current => Some (mergePartial current partial)
      | None => asPayload partial
      end
  | _ => None
  end.

(** A payload that goes around the stale guard: the hard stop and the forced
    auto-confirmation are decided before the guard is looked at. *)
Definition bypassesStaleGuard (p : TransformedPayload) : bool :=
  isHardStop p || isAutoConfirm p.

(** What the reviewer registry holds: a polished payload, or an unpolished
    reset (idle, without a generation id). *)
Definition polishedOrReset (p : TransformedPayload) : Prop :=
  isPolished p = Some true ∨ (isPolished p = Some false ∧ isReset p = true).

End Vocabulary.

(** ** Vocabulary of the further properties *)

Section FurtherVocabulary.

Context `{ET : ExternalTypes}.

(** The commands that bump [globalVersion]. *)
Definition bumpsVersion (c : Command) : bool :=
  match c with
  | UnregisterNode _ | TriggerGlobalRefresh => true
  | _ => false
  end.

(** The node a writing command is addressed to; the teardown of a node and
    the global refresh are not writes. *)
Definition writesNode (c : Command) : option string :=
  match c with
  | RegisterPsd n _ | RegisterTemplate n _ | RegisterKnowledge n _
  | RegisterResolved n _ _ | RegisterPayload n _ _ _ | RegisterReviewerPayload n _ _
  | RegisterPreviewPayload n _ _ _ | UpdatePayload n _ _ | RegisterAnalysis n _ _
  | RegisterFeedback n _ _ | ClearFeedback n _ | UpdatePreview n _ _
  | FlushPipelineInstance n _ => Some n
  | UnregisterNode _ | TriggerGlobalRefresh => None
  end.

(** A registry with the value [v] at the address (n, h) and everything else
    as in [prev]. *)
Definition writeSlot {V : Type} (n h : string) (v : V)
    (prev : gmap string (gmap string V)) : gmap string (gmap string V) :=
  <[n := <[h := v]> (default ∅ (prev !! n))]> prev.

End FurtherVocabulary.

(** ** The analyst node, a caller of the store

    The state transformers and readers of [src/components/DesignAnalystNode.tsx]
    that do not render: the callbacks given to [setNodes], the readers of the
    registries along the edges of the graph, and the reset of an instance. *)

(** The types the component imports and never looks into: a chat message, and
    what a graph node and its data carry besides the fields read here. *)
Class AnalystTypes := {
  ChatMessage : Type;
  NodeRest : Type;
  DataRest : Type;
}.

(** [type ModelKey]. *)
Inductive ModelKey : Type :=
  | gemini_3_flash
  | gemini_3_pro
  | gemini_3_pro_thinking.

(** The fields of a graph edge that the component reads: [source], [target]
    and the two handles, which may be missing. *)
Record Edge := mkEdge {
  edge_source : string;
  edge_sourceHandle : option string;
  edge_target : string;
  edge_targetHandle : option string;
}.

Section Analyst.

Context `{ET : ExternalTypes} `{AT : AnalystTypes}.

(** The state of one analysis instance, with the fields of
    [DEFAULT_INSTANCE_STATE]. *)
Record AnalystInstanceState := mkInstance {
  chatHistory : list ChatMessage;
  layoutStrategy : option LayoutStrategy;
  selectedModel : ModelKey;
  isKnowledgeMuted : bool;
}.

Definition DEFAULT_INSTANCE_STATE : AnalystInstanceState :=
  {| chatHistory := []; layoutStrategy := None; selectedModel := gemini_3_pro;
     isKnowledgeMuted := false |}.

(** [Partial<AnalystInstanceState>]: [None] for a key the object does not
    carry. *)
Record PartialInstanceState := mkPartialInstance {
  partial_chatHistory : option (list ChatMessage);
  partial_layoutStrategy : option (option LayoutStrategy);
  partial_selectedModel : option ModelKey;
  partial_isKnowledgeMuted : option bool;
}.

(** [{ ...oldState, ...updates }]. *)
Definition mergeInstance (oldState : AnalystInstanceState)
    (updates : PartialInstanceState) : AnalystInstanceState :=
  {| chatHistory := default (chatHistory oldState) (partial_chatHistory updates);
     layoutStrategy := default (layoutStrategy oldState) (partial_layoutStrategy updates);
     selectedModel := default (selectedModel oldState) (partial_selectedModel updates);
     isKnowledgeMuted :=
       default (isKnowledgeMuted oldState) (partial_isKnowledgeMuted updates) |}.

(** A complete state handed over as a partial one, as [handleReset] does with
    [DEFAULT_INSTANCE_STATE]. *)
Definition asPartialInstance (s : AnalystInstanceState) : PartialInstanceState :=
  {| partial_chatHistory := Some (chatHistory s);
     partial_layoutStrategy := Some (layoutStrategy s);
     partial_selectedModel := Some (selectedModel s);
     partial_isKnowledgeMuted := Some (isKnowledgeMuted s) |}.

(** The fields of [PSDNodeData] that the component reads. *)
Record PSDNodeData := mkData {
  instanceCount : option Z;
  analystInstances : option (gmap nat AnalystInstanceState);
  data_rest : DataRest;
}.

(** A node of the graph. *)
Record FlowNode := mkNode {
  node_id : string;
  node_data : PSDNodeData;
  node_rest : NodeRest;
}.

(** [x || d] on an optional number: [undefined] and [0] are falsy. *)
Definition or_number (x : option Z) (d : Z) : Z :=
  match x with
  | Some v => if Z.eqb v 0 then d else v
  | None => d
  end.

(** [data.instanceCount || 1]: the number of instance rows the node renders. *)
Definition renderedInstances (data : PSDNodeData) : Z :=
  or_number (instanceCount data) 1.

(** The callback [addInstance] gives to [setNodes]. *)
Definition addInstance (id : string) (nds : list FlowNode) : list FlowNode :=
  List.map (λ n,
    if String.eqb (node_id n) id then
      {| node_id := node_id n;
         node_data :=
           {| instanceCount := Some (or_number (instanceCount (node_data n)) 0 + 1);
              analystInstances := analystInstances (node_data n);
              data_rest := data_rest (node_data n) |};
         node_rest := node_rest n |}
    else n) nds.

(** The callback [updateInstanceState] gives to [setNodes]. *)
Definition updateInstanceState (id : string) (index : nat)
    (updates : PartialInstanceState) (nds : list FlowNode) : list FlowNode :=
  List.map (λ n,
    if String.eqb (node_id n) id then
      let currentInstances := default ∅ (analystInstances (node_data n)) in
      let oldState := default DEFAULT_INSTANCE_STATE (currentInstances !! index) in
      {| node_id := node_id n;
         node_data :=
           {| instanceCount := instanceCount (node_data n);
              analystInstances :=
                Some (<[index := mergeInstance oldState updates]> currentInstances);
              data_rest := data_rest (node_data n) |};
         node_rest := node_rest n |}
    else n) nds.

(** The state of instance [index] as the node renders it:
    [analystInstances[index] || DEFAULT_INSTANCE_STATE]. *)
Definition instanceState (data : PSDNodeData) (index : nat) : AnalystInstanceState :=
  default DEFAULT_INSTANCE_STATE (default ∅ (analystInstances data) !! index).

(** The handle names built with template literals. *)
Definition sourceIn (index : nat) : string := "source-in-" +:+ pretty index.
Definition sourceOut (index : nat) : string := "source-out-" +:+ pretty index.

(** [handleReset]: the instance goes back to its default state and its output
    slot is flushed from the store. *)
Definition handleReset (id : string) (index : nat)
    (world : list FlowNode * ProceduralState) : list FlowNode * ProceduralState :=
  (updateInstanceState id index (asPartialInstance DEFAULT_INSTANCE_STATE) world.1,
   flushPipelineInstance id (sourceOut index) world.2).

(** [handleModelChange]. *)
Definition handleModelChange (id : string) (index : nat) (model : ModelKey)
    (nds : list FlowNode) : list FlowNode :=
  updateInstanceState id index
    {| partial_chatHistory := None; partial_layoutStrategy := None;
       partial_selectedModel := Some model; partial_isKnowledgeMuted := None |} nds.

(** [handleToggleMute]: the flag is read from the data the node was rendered
    with, [analystInstances[index]?.isKnowledgeMuted || false]. *)
Definition handleToggleMute (id : string) (data : PSDNodeData) (index : nat)
    (nds : list FlowNode) : list FlowNode :=
  let currentState :=
    from_option isKnowledgeMuted false (default ∅ (analystInstances data) !! index) in
  updateInstanceState id index
    {| partial_chatHistory := None; partial_layoutStrategy := None;
       partial_selectedModel := None;
       partial_isKnowledgeMuted := Some (negb currentState) |} nds.

(** [edges.find(e => e.target === id && e.targetHandle === handle)]. *)
Definition incomingEdge (id handle : string) (edges : list Edge) : option Edge :=
  List.find (λ e, String.eqb (edge_target e) id
                  && bool_decide (edge_targetHandle e = Some handle)) edges.

(** [getSourceData]: the resolved context at the far end of the edge that
    enters [source-in-index], or nothing. *)
Definition getSourceData (id : string) (edges : list Edge)
    (resolved : gmap string (gmap string MappingContext)) (index : nat)
    : option MappingContext :=
  match incomingEdge id (sourceIn index) edges with
  | None => None
  | Some edge =>
      match edge_sourceHandle edge with
      | Some handle =>
          if String.eqb handle EmptyString then None
          else
            match resolved !! edge_source edge with
            | Some registry => registry !! handle
            | None => None
            end
      | None => None
      end
  end.

(** [activeKnowledge]: the knowledge context of the node wired to
    [knowledge-in], or nothing. *)
Definition activeKnowledge (id : string) (edges : list Edge)
    (knowledge : gmap string KnowledgeContext) : option KnowledgeContext :=
  match incomingEdge id "knowledge-in" edges with
  | None => None
  | Some edge => knowledge !! edge_source edge
  end.

End Analyst.

(** The opaque types of the analyst node instantiated for the worked examples. *)
Definition sampleAnalystTypes : AnalystTypes :=
  {| ChatMessage := string; NodeRest := unit; DataRest := unit |}.

Module MoreSamples.

#[local] Existing Instance sampleTypes.
#[local] Existing Instance sampleAnalystTypes.

(** An analyst node a with a resolver r wired to its first source input and a
    knowledge node k wired to its knowledge input. *)
Definition wiring : list Edge :=
  [ {| edge_source := "r"; edge_sourceHandle := Some "source-out-0";
       edge_target := "a"; edge_targetHandle := Some "source-in-0" |};
    {| edge_source := "k"; edge_sourceHandle := None;
       edge_target := "a"; edge_targetHandle := Some "knowledge-in" |} ].

(** A store in which r has resolved its first two outputs and k has
    registered its rules. *)
Definition resolvedStore : ProceduralState :=
  initialState
    |> registerResolved "r" "source-out-0" tt
    |> registerResolved "r" "source-out-1" tt
    |> registerKnowledge "k" tt.

(** A freshly dropped analyst node: no instance count, no instances. *)
Definition freshNode : FlowNode :=
  {| node_id := "a";
     node_data := {| instanceCount := None; analystInstances := None; data_rest := tt |};
     node_rest := tt |}.

(** The same node with two instances, the second muted and set to the fast
    model. *)
Definition busyNode : FlowNode :=
  {| node_id := "a";
     node_data :=
       {| instanceCount := Some 2;
          analystInstances :=
            Some {[ 1%nat := {| chatHistory := ["hello"]; layoutStrategy := Some tt;
                                selectedModel := gemini_3_flash;
                                isKnowledgeMuted := true |} ]};
          data_rest := tt |};
     node_rest := tt |}.

(** Another node of the graph. *)
Definition otherNode : FlowNode :=
  {| node_id := "b";
     node_data := {| instanceCount := Some 3; analystInstances := None; data_rest := tt |};
     node_rest := tt |}.

(** A run with a teardown and a refresh among other commands. *)
Definition mixedRun : list Command :=
  [ RegisterPsd "n" tt; RegisterResolved "n" "h" tt; UnregisterNode "n";
    RegisterKnowledge "k" tt; TriggerGlobalRefresh; ClearFeedback "n" "h" ].

(** The store before anything is registered. *)
Definition emptyStore : ProceduralState := initialState.

(** Feedback registered and cleared again at (n, h) of the empty store. *)
Definition feedbackCleared : ProceduralState :=
  emptyStore |> registerFeedback "n" "h" tt |> clearFeedback "n" "h".

(** The state [mixedRun] ends in. *)
Definition mixedRunEnd : ProceduralState :=
  emptyStore
    |> registerPsd "n" tt |> registerResolved "n" "h" tt |> unregisterNode "n"
    |> registerKnowledge "k" tt |> triggerGlobalRefresh |> clearFeedback "n" "h".

(** The flush of the slot (n, h). *)
Definition flushCommand : Command := FlushPipelineInstance "n" "h".

(** The commands that lead from the empty store to [Samples.populated]. *)
Definition populatingRun : list Command :=
  [ RegisterPsd "n" tt; RegisterTemplate "n" tt; RegisterKnowledge "n" tt;
    RegisterResolved "n" "h" tt; RegisterResolved "n" "h2" tt;
    RegisterResolved "m" "h" tt;
    RegisterPayload "n" "h" (Samples.generated "g1") None;
    RegisterPayload "n" "h2" (Samples.generated "g2") None;
    RegisterPreviewPayload "n" "h" (Samples.generated "g1") "blob:1";
    RegisterAnalysis "n" "h" tt; RegisterFeedback "n" "h" tt ].

End MoreSamples.

(** ** Properties of the JavaScript primitives *)

(** Lexicographic order on strings, stated independently of the comparison
    loop: a proper prefix comes first, otherwise the first differing code
    unit decides. *)
Inductive LexLt : string → string → Prop :=
  | LexLt_prefix c b : LexLt EmptyString (String c b)
  | LexLt_head x y a b :
      (Ascii.N_of_ascii x < Ascii.N_of_ascii y)%N → LexLt (String x a) (String y b)
  | LexLt_tail x a b : LexLt a b → LexLt (String x a) (String x b).

Lemma ascii_compare_eq x y : Ascii.compare x y = Eq → x = y.
Proof.
  unfold Ascii.compare. intros H%N.compare_eq_iff.
  by rewrite <- (Ascii.ascii_N_embedding x), <- (Ascii.ascii_N_embedding y), H.
Qed.

Lemma ascii_compare_refl x : Ascii.compare x x = Eq.
Proof. unfold Ascii.compare. apply N.compare_refl. Qed.

Lemma string_lt_LexLt a b : JS.string_lt a b = true ↔ LexLt a b.
Proof.
  split.
  - revert b. induction a as [|x a IH]; intros [|y b]; simpl; try done.
    + intros _. constructor.
    + destruct (Ascii.compare x y) eqn:E; try done.
      * apply ascii_compare_eq in E as ->. intros H. apply LexLt_tail, IH, H.
      * intros _. apply LexLt_head. by apply N.compare_lt_iff.
  - induction 1 as [c b|x y a b Hlt|x a b _ IH]; simpl.
    + done.
    + unfold Ascii.compare. by apply N.compare_lt_iff in Hlt as ->.
    + by rewrite ascii_compare_refl.
Qed.

Lemma string_lt_irrefl a : JS.string_lt a a = false.
Proof. induction a as [|x a IH]; simpl; [done|]. by rewrite ascii_compare_refl. Qed.

Lemma truthy_string_Some s : JS.truthy_string (Some s) = true ↔ s ≠ EmptyString.
Proof.
  simpl. destruct (String.eqb_spec s EmptyString); simpl; split; try done.
Qed.

(** ** Properties of the reconciliation engine *)

Section Reconciliation.

Context `{ET : ExternalTypes}.

Implicit Types incoming current : TransformedPayload.
Implicit Types stored : option TransformedPayload.

(** *** One equation per rule *)

Lemma reconcile_reset incoming stored :
  isReset incoming = true →
  reconcileTerminalState incoming stored =
    incoming |> set_previewUrl None |> set_isConfirmed (Some false)
             |> set_isTransient (Some false) |> set_isSynthesizing (Some false)
             |> set_isPolished (Some false) |> set_requiresGeneration (Some false)
             |> set_sourceReference None.
Proof. unfold reconcileTerminalState. by intros ->. Qed.

Lemma reconcile_hardStop incoming stored :
  isReset incoming = false → isHardStop incoming = true →
  reconcileTerminalState incoming stored =
    incoming |> set_previewUrl None |> set_isConfirmed (Some false)
             |> set_isTransient (Some false) |> set_isSynthesizing (Some false)
             |> set_requiresGeneration (Some false)
             |> set_metrics (metrics incoming)
             |> set_layers (List.filter keepsLayer (layers incoming)).
Proof. unfold reconcileTerminalState. by intros -> ->. Qed.

Lemma reconcile_stale incoming current :
  isReset incoming = false → isHardStop incoming = false →
  isAutoConfirm incoming = false → isStale incoming (Some current) = true →
  reconcileTerminalState incoming (Some current) = current.
Proof. unfold reconcileTerminalState. by intros -> -> -> ->. Qed.

(** A payload that carries a generation id is not a reset. *)
Lemma present_not_reset incoming :
  JS.truthy_string (generationId incoming) = true → isReset incoming = false.
Proof. unfold isReset. intros ->. by rewrite andb_false_r. Qed.

Lemma present_generation_not_reset incoming gi :
  generationId incoming = Some gi → gi ≠ EmptyString → isReset incoming = false.
Proof.
  intros Hi Hgi. apply present_not_reset. rewrite Hi. by apply truthy_string_Some.
Qed.

(** With both tokens present the guard is the string comparison. *)
Lemma isStale_present incoming current gi gc :
  generationId incoming = Some gi → generationId current = Some gc →
  gi ≠ EmptyString → gc ≠ EmptyString →
  isStale incoming (Some current) = JS.string_lt gi gc.
Proof.
  intros Hi Hc Hgi%truthy_string_Some Hgc%truthy_string_Some.
  unfold isStale. simpl. by rewrite Hi, Hc, Hgi, Hgc.
Qed.

(** *** Reset *)

(** C5. An incoming payload with [status = idle] and no generation id (the
    key missing, [undefined] or the empty token) comes back with
    [previewUrl] and [sourceReference] absent, with [isConfirmed],
    [isTransient], [isSynthesizing], [isPolished] and [requiresGeneration]
    false and with every other field as in the incoming payload, whatever the
    stored payload is, present or absent. *)
Theorem reset_strips_generated_fields incoming stored :
  status incoming = "idle" →
  JS.truthy_string (generationId incoming) = false →
  let r := reconcileTerminalState incoming stored in
  (previewUrl r = None ∧ isConfirmed r = Some false ∧ isTransient r = Some false
   ∧ isSynthesizing r = Some false ∧ isPolished r = Some false
   ∧ requiresGeneration r = Some false ∧ sourceReference r = None)
  ∧ (status r = status incoming ∧ generationId r = generationId incoming
     ∧ isMandatory r = isMandatory incoming
     ∧ generationAllowed r = generationAllowed incoming
     ∧ targetContainer r = targetContainer incoming
     ∧ sourceContainer r = sourceContainer incoming
     ∧ metrics r = metrics incoming ∧ layers r = layers incoming
     ∧ directives r = directives incoming)
  ∧ (∀ other, reconcileTerminalState incoming other = r).
Proof.
  intros Hidle Hgen r.
  assert (Hreset : isReset incoming = true).
  { unfold isReset. by rewrite Hidle, Hgen. }
  subst r. split; [|split].
  - by rewrite (reconcile_reset _ _ Hreset).
  - by rewrite (reconcile_reset _ _ Hreset).
  - intros other. by rewrite !(reconcile_reset _ _ Hreset).
Qed.

End Reconciliation.

Lemma reset_strips_generated_fields_witness :
  status (Samples.bare "idle") = "idle"
  ∧ JS.truthy_string (generationId (Samples.bare "idle")) = false
  ∧ isPolished (reconcileTerminalState (Samples.bare "idle")
                  (Some (Samples.generated "g1"))) = Some false
  ∧ reconcileTerminalState (Samples.bare "idle") None
    = reconcileTerminalState (Samples.bare "idle") (Some (Samples.generated "g1")).
Proof.
  split; [reflexivity|]. split; [reflexivity|].
  pose proof (reset_strips_generated_fields (Samples.bare "idle")
                (Some (Samples.generated "g1")) eq_refl eq_refl) as H.
  cbv zeta in H. destruct H as ((_ & _ & _ & _ & Hpol & _) & _ & Hany).
  split; [exact Hpol|apply Hany].
Defined.

Section StaleGuard.

Context `{ET : ExternalTypes}.

Implicit Types incoming current : TransformedPayload.

(** C1, as amended. When both generation ids are present, the incoming one is
    strictly less than the stored one, and the incoming payload is neither
    gated ([generationAllowed = false]) nor a forced auto-confirmation, the
    engine returns the stored payload unchanged. *)
Theorem stale_write_rejected incoming current gi gc :
  generationId incoming = Some gi → generationId current = Some gc →
  gi ≠ EmptyString → gc ≠ EmptyString →
  JS.string_lt gi gc = true →
  isHardStop incoming = false → isAutoConfirm incoming = false →
  reconcileTerminalState incoming (Some current) = current.
Proof.
  intros Hi Hc Hgi Hgc Hlt Hgate Hforced.
  apply reconcile_stale; try done.
  - by apply (present_generation_not_reset _ gi).
  - by rewrite (isStale_present _ _ gi gc).
Qed.

(** C10, as amended. With both generation ids present and an incoming payload
    that is neither gated nor a forced auto-confirmation, the condition of the
    stale guard holds exactly when the incoming token precedes the stored one
    in lexicographic order, and the write is then rejected. *)
Theorem stale_guard_is_lexicographic incoming current gi gc :
  generationId incoming = Some gi → generationId current = Some gc →
  gi ≠ EmptyString → gc ≠ EmptyString →
  isHardStop incoming = false → isAutoConfirm incoming = false →
  (isStale incoming (Some current) = true ↔ LexLt gi gc)
  ∧ (LexLt gi gc → reconcileTerminalState incoming (Some current) = current).
Proof.
  intros Hi Hc Hgi Hgc Hgate Hforced. split.
  - rewrite (isStale_present _ _ gi gc) by done. apply string_lt_LexLt.
  - intros Hlt%string_lt_LexLt. apply reconcile_stale; try done.
    + by apply (present_generation_not_reset _ gi).
    + by rewrite (isStale_present _ _ gi gc).
Qed.

End StaleGuard.

(** C1, the counterexample. A gated payload of run 1 written over a stored
    payload of run 2 is not rejected: the hard stop comes before the guard. *)
Lemma stale_write_kept_when_gated :
  generationId (Samples.gated "1") = Some "1"
  ∧ generationId (Samples.generated "2") = Some "2"
  ∧ JS.string_lt "1" "2" = true
  ∧ reconcileTerminalState (Samples.gated "1") (Some (Samples.generated "2"))
    ≠ Samples.generated "2".
Proof. repeat split. intros H. by apply (f_equal generationId) in H. Qed.

Lemma stale_write_rejected_witness :
  generationId (Samples.generated "1") = Some "1"
  ∧ generationId (Samples.generated "2") = Some "2"
  ∧ JS.string_lt "1" "2" = true
  ∧ reconcileTerminalState (Samples.generated "1") (Some (Samples.generated "2"))
    = Samples.generated "2".
Proof.
  split; [reflexivity|]. split; [reflexivity|]. split; [reflexivity|].
  apply (stale_write_rejected (Samples.generated "1") (Samples.generated "2") "1" "2");
    reflexivity || discriminate.
Defined.

(** C10, the counterexample. Token 10 precedes token 9 in lexicographic order,
    yet a forced auto-confirmation of run 10 over a stored payload of run 9 is
    kept: the guard is not reached. *)
Lemma stale_guard_skipped_when_forced :
  generationId (Samples.mandatory "10") = Some "10"
  ∧ generationId (Samples.generated "9") = Some "9"
  ∧ LexLt "10" "9"
  ∧ reconcileTerminalState (Samples.mandatory "10") (Some (Samples.generated "9"))
    ≠ Samples.generated "9"
  ∧ generationId
      (reconcileTerminalState (Samples.mandatory "10") (Some (Samples.generated "9")))
    = Some "10".
Proof.
  split; [done|]. split; [done|]. split; [by apply string_lt_LexLt|]. split; [|done].
  intros H. by apply (f_equal generationId) in H.
Qed.

(** The example of C10: incoming token 10 against stored token 9 is rejected. *)
Lemma stale_guard_is_lexicographic_witness :
  generationId (Samples.generated "10") = Some "10"
  ∧ generationId (Samples.generated "9") = Some "9"
  ∧ isStale (Samples.generated "10") (Some (Samples.generated "9")) = true
  ∧ reconcileTerminalState (Samples.generated "10") (Some (Samples.generated "9"))
    = Samples.generated "9".
Proof.
  destruct (stale_guard_is_lexicographic (Samples.generated "10") (Samples.generated "9")
              "10" "9" eq_refl eq_refl ltac:(discriminate) ltac:(discriminate)
              eq_refl eq_refl) as [Hiff Hrej].
  assert (Hlex : LexLt "10" "9") by (by apply string_lt_LexLt).
  split; [reflexivity|]. split; [reflexivity|]. split.
  - apply Hiff, Hlex.
  - apply Hrej, Hlex.
Defined.

(** The two remaining examples of the specification, run on the embedding:
    a mandatory payload is confirmed at once, and a write of the stored
    generation passes the guard and brings its layers. *)
Example mandatory_payload_is_confirmed :
  let r := reconcileTerminalState (Samples.mandatory "g1") None in
  status r = "success" ∧ isConfirmed r = Some true.
Proof. done. Qed.

Example equal_generation_passes_through :
  let current :=
    Samples.generated "g1" |> set_previewUrl (Some "a") |> set_isConfirmed (Some true) in
  let incoming :=
    Samples.generated "g1" |> set_layers [Samples.background]
      |> set_isConfirmed (Some true) in
  let r := reconcileTerminalState incoming (Some current) in
  layers r = [Samples.background] ∧ generationId r = Some "g1".
Proof. done. Qed.

(** ** The hard stop and its layer filter *)

Section HardStop.

Context `{ET : ExternalTypes}.

Implicit Types incoming : TransformedPayload.

(** The filter of the source, read through the vocabulary of the specification. *)
Lemma keepsLayer_retainedByGate (l : Layer) : keepsLayer l = retainedByGate l.
Proof.
  unfold keepsLayer, retainedByGate, isGenerative, hasSyntheticId, hasNoId, JS.startsWith.
  destruct (String.eqb (layer_type l) "generative"),
           (String.eqb (layer_id l) EmptyString),
           (String.prefix "gen-layer-" (layer_id l)); reflexivity.
Qed.

Lemma isHardStop_gated incoming :
  generationAllowed incoming = Some false → isHardStop incoming = true.
Proof. unfold isHardStop. by intros ->. Qed.

(** C6, as amended. An incoming payload with [generationAllowed = false] that
    is not a reset comes back with [previewUrl] absent, with [isConfirmed],
    [isTransient], [isSynthesizing] and [requiresGeneration] false, with its
    own [metrics], and with its layers, in order, except the generative layers
    whose id carries the synthetic prefix or is empty; generative layers with
    any other id and layers of any other type stay. *)
Theorem hard_stop_strips_additive_layers incoming stored :
  isReset incoming = false →
  generationAllowed incoming = Some false →
  let r := reconcileTerminalState incoming stored in
  previewUrl r = None ∧ isConfirmed r = Some false ∧ isTransient r = Some false
  ∧ isSynthesizing r = Some false ∧ requiresGeneration r = Some false
  ∧ metrics r = metrics incoming
  ∧ layers r = List.filter retainedByGate (layers incoming).
Proof.
  intros Hreset Hgate%isHardStop_gated r. subst r.
  rewrite (reconcile_hardStop _ _ Hreset Hgate). simpl.
  repeat split. apply List.filter_ext, keepsLayer_retainedByGate.
Qed.

End HardStop.

(** C6, the counterexample. A generative layer with an empty id carries no
    synthetic prefix, and the gate drops it all the same. *)
Lemma gate_drops_layer_without_id :
  let incoming := Samples.gated "g1" |> set_layers [Samples.anonymous; Samples.background] in
  isReset incoming = false
  ∧ generationAllowed incoming = Some false
  ∧ List.filter retainedAsSpecified (layers incoming)
    = [Samples.anonymous; Samples.background]
  ∧ layers (reconcileTerminalState incoming None) = [Samples.background]
  ∧ layers (reconcileTerminalState incoming None)
    ≠ List.filter retainedAsSpecified (layers incoming).
Proof. done. Qed.

(** The gate-filtering example of the specification: of a swapped, an additive
    and a pixel layer, the first and the third survive. *)
Lemma hard_stop_strips_additive_layers_witness :
  let incoming :=
    Samples.gated "g1"
      |> set_layers [Samples.swapped; Samples.additive; Samples.background] in
  isReset incoming = false
  ∧ generationAllowed incoming = Some false
  ∧ layers (reconcileTerminalState incoming None)
    = [Samples.swapped; Samples.background].
Proof.
  intros incoming. split; [reflexivity|]. split; [reflexivity|].
  pose proof (hard_stop_strips_additive_layers incoming None eq_refl eq_refl) as H.
  cbv zeta in H. destruct H as (_ & _ & _ & _ & _ & _ & H).
  etransitivity; [exact H|reflexivity].
Defined.

(** ** Reading a slot after an updater has run *)

Section Slots.

Context {V : Type}.

Implicit Types prev : gmap string (gmap string V).
Implicit Types nodeRecord : gmap string V.

Lemma nodeRecord_lookup prev nodeId handleId :
  default ∅ (prev !! nodeId) !! handleId = slot prev nodeId handleId.
Proof. unfold slot. by destruct (prev !! nodeId). Qed.

(** [{ ...prev, [n]: { ...nodeRecord, [h]: v } }] read at (n', h'). *)
Lemma slot_write prev n h (v : V) n' h' :
  slot (<[n := <[h := v]> (default ∅ (prev !! n))]> prev) n' h' =
    if decide (n = n' ∧ h = h') then Some v else slot prev n' h'.
Proof.
  unfold slot. destruct (decide (n = n')) as [->|Hn].
  - rewrite lookup_insert_eq. simpl. destruct (decide (h = h')) as [->|Hh].
    + rewrite lookup_insert_eq. by rewrite decide_True.
    + rewrite lookup_insert_ne by done. rewrite decide_False; [|by intros [??]].
      by destruct (prev !! n').
  - rewrite lookup_insert_ne by done. rewrite decide_False; [done|by intros [??]].
Qed.

(** [{ ...prev, [n]: rest }] with [h] taken out of the node record. *)
Lemma slot_clear prev nodeRecord n h n' h' :
  prev !! n = Some nodeRecord →
  slot (<[n := delete h nodeRecord]> prev) n' h' =
    if decide (n = n' ∧ h = h') then None else slot prev n' h'.
Proof.
  intros Hrec. unfold slot. destruct (decide (n = n')) as [->|Hn].
  - rewrite lookup_insert_eq, Hrec. simpl. destruct (decide (h = h')) as [->|Hh].
    + rewrite lookup_delete_eq. by rewrite decide_True.
    + rewrite lookup_delete_ne by done. rewrite decide_False; [done|by intros [??]].
  - rewrite lookup_insert_ne by done. rewrite decide_False; [done|by intros [??]].
Qed.

(** The node taken out of the registry. *)
Lemma slot_dropNode prev n n' h' :
  slot (delete n prev) n' h' = if decide (n = n') then None else slot prev n' h'.
Proof.
  unfold slot. destruct (decide (n = n')) as [->|Hn].
  - by rewrite lookup_delete_eq.
  - by rewrite lookup_delete_ne.
Qed.

Lemma slot_None_node prev n h : prev !! n = None → slot prev n h = None.
Proof. unfold slot. by intros ->. Qed.

(** [clearEntry] empties one slot and nothing else. *)
Lemma slot_clearEntry prev n h n' h' :
  slot (commit prev (clearEntry_updater n h prev)) n' h' =
    if decide (n = n' ∧ h = h') then None else slot prev n' h'.
Proof.
  unfold clearEntry_updater. destruct (prev !! n) as [nodeRecord|] eqn:Hrec; simpl.
  - by apply slot_clear.
  - case_decide as Heq; [|done]. destruct Heq as [<- <-]. by apply slot_None_node.
Qed.

(** The conditional removal of a node reads like the unconditional one. *)
Lemma commit_dropNodeIfPresent {W : Type} (r : gmap string W) n :
  commit r (dropNodeIfPresent_updater n r) = delete n r.
Proof.
  unfold dropNodeIfPresent_updater. destruct (r !! n) eqn:Hn; simpl; [done|].
  symmetry. by apply delete_id.
Qed.

Context `{EqDecision V}.

(** The writers that compare and replace: the slot holds the candidate
    afterwards, whether or not the write was skipped. *)
Lemma slot_registerSlot prev n h (v : V) n' h' :
  slot (commit prev (registerSlot_updater n h v prev)) n' h' =
    if decide (n = n' ∧ h = h') then Some v else slot prev n' h'.
Proof.
  unfold registerSlot_updater. rewrite nodeRecord_lookup. case_decide as Hcur; simpl.
  - case_decide as Heq; [|done]. by destruct Heq as [<- <-].
  - apply slot_write.
Qed.

End Slots.

(** ** Teardown: node removal and slot flush *)

Section Teardown.

Context `{ET : ExternalTypes}.

Implicit Types st : ProceduralState.

Lemma clearEntry_other_node {V : Type} (prev : gmap string (gmap string V)) n h m :
  m ≠ n → commit prev (clearEntry_updater n h prev) !! m = prev !! m.
Proof.
  intros Hm. unfold clearEntry_updater. destruct (prev !! n); simpl; [|done].
  by rewrite lookup_insert_ne.
Qed.

(** What [unregisterNode] leaves in each cell. *)
Lemma unregisterNode_cells st n :
  let st' := unregisterNode n st in
  psdRegistry st' = delete n (psdRegistry st)
  ∧ templateRegistry st' = delete n (templateRegistry st)
  ∧ resolvedRegistry st' = delete n (resolvedRegistry st)
  ∧ payloadRegistry st' = delete n (payloadRegistry st)
  ∧ reviewerRegistry st' = delete n (reviewerRegistry st)
  ∧ previewRegistry st' = delete n (previewRegistry st)
  ∧ analysisRegistry st' = delete n (analysisRegistry st)
  ∧ feedbackRegistry st' = delete n (feedbackRegistry st)
  ∧ knowledgeRegistry st' = delete n (knowledgeRegistry st).
Proof.
  simpl. repeat split; try reflexivity; apply commit_dropNodeIfPresent.
Qed.

(** C7. After [unregisterNode n] no registry has an entry under [n], neither
    for the node nor for any of its slots; the entries of every other node
    are those from before the call; [globalVersion] is one greater. *)
Theorem unregisterNode_removes_node st n :
  let st' := unregisterNode n st in
  (psdRegistry st' !! n = None ∧ templateRegistry st' !! n = None
   ∧ resolvedRegistry st' !! n = None ∧ payloadRegistry st' !! n = None
   ∧ reviewerRegistry st' !! n = None ∧ previewRegistry st' !! n = None
   ∧ analysisRegistry st' !! n = None ∧ feedbackRegistry st' !! n = None
   ∧ knowledgeRegistry st' !! n = None)
  ∧ (∀ h, slot (resolvedRegistry st') n h = None
          ∧ slot (payloadRegistry st') n h = None
          ∧ slot (reviewerRegistry st') n h = None
          ∧ slot (previewRegistry st') n h = None
          ∧ slot (analysisRegistry st') n h = None
          ∧ slot (feedbackRegistry st') n h = None)
  ∧ (∀ m, m ≠ n →
          psdRegistry st' !! m = psdRegistry st !! m
          ∧ templateRegistry st' !! m = templateRegistry st !! m
          ∧ resolvedRegistry st' !! m = resolvedRegistry st !! m
          ∧ payloadRegistry st' !! m = payloadRegistry st !! m
          ∧ reviewerRegistry st' !! m = reviewerRegistry st !! m
          ∧ previewRegistry st' !! m = previewRegistry st !! m
          ∧ analysisRegistry st' !! m = analysisRegistry st !! m
          ∧ feedbackRegistry st' !! m = feedbackRegistry st !! m
          ∧ knowledgeRegistry st' !! m = knowledgeRegistry st !! m)
  ∧ globalVersion st' = globalVersion st + 1.
Proof.
  intros st'.
  destruct (unregisterNode_cells st n)
    as (Hpsd & Htpl & Hres & Hpay & Hrev & Hprv & Hana & Hfbk & Hknw).
  fold st' in Hpsd, Htpl, Hres, Hpay, Hrev, Hprv, Hana, Hfbk, Hknw.
  rewrite Hpsd, Htpl, Hres, Hpay, Hrev, Hprv, Hana, Hfbk, Hknw.
  split; [|split; [|split]].
  - repeat split; apply lookup_delete_eq.
  - intros h. repeat split; apply slot_None_node, lookup_delete_eq.
  - intros m Hm. repeat split; by apply lookup_delete_ne.
  - reflexivity.
Qed.

(** C8. After [flushPipelineInstance n s] the slot (n, s) is empty in the six
    slot-scoped registries; every other slot, of [n] and of any other node,
    reads as before, the record of every other node is untouched, the three
    node-scoped registries and [globalVersion] are as before. *)
Theorem flushPipelineInstance_clears_slot st n s :
  let st' := flushPipelineInstance n s st in
  (slot (resolvedRegistry st') n s = None ∧ slot (payloadRegistry st') n s = None
   ∧ slot (reviewerRegistry st') n s = None ∧ slot (previewRegistry st') n s = None
   ∧ slot (analysisRegistry st') n s = None ∧ slot (feedbackRegistry st') n s = None)
  ∧ (∀ n2 s2, ¬ (n = n2 ∧ s = s2) →
          slot (resolvedRegistry st') n2 s2 = slot (resolvedRegistry st) n2 s2
          ∧ slot (payloadRegistry st') n2 s2 = slot (payloadRegistry st) n2 s2
          ∧ slot (reviewerRegistry st') n2 s2 = slot (reviewerRegistry st) n2 s2
          ∧ slot (previewRegistry st') n2 s2 = slot (previewRegistry st) n2 s2
          ∧ slot (analysisRegistry st') n2 s2 = slot (analysisRegistry st) n2 s2
          ∧ slot (feedbackRegistry st') n2 s2 = slot (feedbackRegistry st) n2 s2)
  ∧ (∀ m, m ≠ n →
          resolvedRegistry st' !! m = resolvedRegistry st !! m
          ∧ payloadRegistry st' !! m = payloadRegistry st !! m
          ∧ reviewerRegistry st' !! m = reviewerRegistry st !! m
          ∧ previewRegistry st' !! m = previewRegistry st !! m
          ∧ analysisRegistry st' !! m = analysisRegistry st !! m
          ∧ feedbackRegistry st' !! m = feedbackRegistry st !! m)
  ∧ (psdRegistry st' = psdRegistry st ∧ templateRegistry st' = templateRegistry st
     ∧ knowledgeRegistry st' = knowledgeRegistry st)
  ∧ globalVersion st' = globalVersion st.
Proof.
  intros st'. subst st'. simpl. split; [|split; [|split; [|split]]].
  - repeat split; rewrite slot_clearEntry; by rewrite decide_True.
  - intros n2 s2 Hne. repeat split; rewrite slot_clearEntry; by rewrite decide_False.
  - intros m Hm. repeat split; by apply clearEntry_other_node.
  - done.
  - done.
Qed.

End Teardown.

Lemma unregisterNode_removes_node_witness :
  slot (payloadRegistry Samples.populated) "n" "h" ≠ None
  ∧ slot (payloadRegistry (unregisterNode "n" Samples.populated)) "n" "h" = None
  ∧ resolvedRegistry (unregisterNode "n" Samples.populated) !! "m"
    = resolvedRegistry Samples.populated !! "m"
  ∧ globalVersion (unregisterNode "n" Samples.populated)
    = globalVersion Samples.populated + 1.
Proof.
  split; [discriminate|].
  pose proof (unregisterNode_removes_node Samples.populated "n") as H.
  cbv zeta in H. destruct H as (_ & Hslots & Hothers & Hversion).
  split; [apply Hslots|]. split; [|exact Hversion].
  apply (Hothers "m"). discriminate.
Defined.

Lemma flushPipelineInstance_clears_slot_witness :
  slot (payloadRegistry Samples.populated) "n" "h" ≠ None
  ∧ slot (payloadRegistry (flushPipelineInstance "n" "h" Samples.populated)) "n" "h"
    = None
  ∧ slot (payloadRegistry (flushPipelineInstance "n" "h" Samples.populated)) "n" "h2"
    = slot (payloadRegistry Samples.populated) "n" "h2"
  ∧ psdRegistry (flushPipelineInstance "n" "h" Samples.populated)
    = psdRegistry Samples.populated.
Proof.
  split; [discriminate|].
  pose proof (flushPipelineInstance_clears_slot Samples.populated "n" "h") as H.
  cbv zeta in H. destruct H as (Hslot & Hothers & _ & Hnodes & _).
  split; [apply Hslot|]. split; [|apply Hnodes].
  apply (Hothers "n" "h2"). intros [_ ?]. discriminate.
Defined.

(** ** What a command does to the payload registries *)

Section Writers.

Context `{ET : ExternalTypes}.

Implicit Types st : ProceduralState.
Implicit Types prev : gmap string (gmap string TransformedPayload).

Lemma slot_storeReconciled prev n h (r : TransformedPayload) n' h' :
  slot (commit prev
          (storeReconciled n h (default ∅ (prev !! n)) (slot prev n h) r prev)) n' h' =
    if decide (n = n' ∧ h = h') then Some r else slot prev n' h'.
Proof.
  unfold storeReconciled. case_decide as Hcur; simpl.
  - case_decide as Heq; [|done]. by destruct Heq as [<- <-].
  - apply slot_write.
Qed.

Lemma slot_registerPayload prev n h payload masterOverride n' h' :
  slot (commit prev (registerPayload_updater n h payload masterOverride prev)) n' h' =
    if decide (n = n' ∧ h = h')
    then Some (reconcileTerminalState (effectivePayload payload masterOverride)
                 (slot prev n h))
    else slot prev n' h'.
Proof.
  unfold registerPayload_updater. cbv zeta. rewrite nodeRecord_lookup.
  apply slot_storeReconciled.
Qed.

Lemma slot_registerReviewerPayload prev n h payload n' h' :
  slot (commit prev (registerReviewerPayload_updater n h payload prev)) n' h' =
    if decide (n = n' ∧ h = h')
    then Some (reconcileTerminalState (payload |> set_isPolished (Some true))
                 (slot prev n h))
    else slot prev n' h'.
Proof.
  unfold registerReviewerPayload_updater. cbv zeta. rewrite nodeRecord_lookup.
  apply slot_storeReconciled.
Qed.

Lemma set_previewUrl_same (p : TransformedPayload) url :
  previewUrl p = url → set_previewUrl url p = p.
Proof. destruct p. simpl. by intros ->. Qed.

Lemma slot_updatePreview prev n h url n' h' :
  slot (commit prev (updatePreview_updater n h url prev)) n' h' =
    if decide (n = n' ∧ h = h')
    then set_previewUrl (Some url) <$> slot prev n h
    else slot prev n' h'.
Proof.
  unfold updatePreview_updater.
  destruct (prev !! n) as [nodeRecord|] eqn:Hrec; simpl.
  - destruct (nodeRecord !! h) as [current|] eqn:Hcur; simpl.
    + assert (Hslot : slot prev n h = Some current) by (unfold slot; by rewrite Hrec).
      case_decide as Hurl; simpl.
      * case_decide as Heq; [|done]. destruct Heq as [<- <-].
        by rewrite Hslot; simpl; rewrite set_previewUrl_same.
      * replace nodeRecord with (default ∅ (prev !! n)) by (by rewrite Hrec).
        rewrite slot_write, Hslot. done.
    + case_decide as Heq; [|done]. destruct Heq as [<- <-].
      unfold slot. by rewrite Hrec; simpl; rewrite Hcur.
  - case_decide as Heq; [|done]. destruct Heq as [<- <-].
    by rewrite (slot_None_node _ _ _ Hrec).
Qed.

Lemma slot_updatePayload prev n h partial u n' h' :
  updatePayload_updater n h partial prev = Some u →
  slot (commit prev u) n' h' = slot prev n' h'
  ∨ (∃ candidate,
        match slot prev n h with
        | Some current => candidate = mergePartial current partial
        | None => asPayload partial = Some candidate
        end
        ∧ slot (commit prev u) n' h' =
            if decide (n = n' ∧ h = h')
            then Some (reconcileTerminalState candidate (slot prev n h))
            else slot prev n' h').
Proof.
  unfold updatePayload_updater. cbv zeta. rewrite nodeRecord_lookup.
  destruct (slot prev n h) as [current|] eqn:Hslot.
  - intros [= <-]. right. exists (mergePartial current partial). split; [done|].
    rewrite <- Hslot. apply slot_storeReconciled.
  - destruct (_ && _).
    + intros [= <-]. by left.
    + destruct (asPayload partial) as [merged|] eqn:Hcast; simpl; [|done].
      intros [= <-]. right. exists merged. split; [done|].
      rewrite <- Hslot. apply slot_storeReconciled.
Qed.

(** Every command, seen from one address of the payload registry: the slot
    is left alone, or emptied, or set to what the engine makes of a candidate
    and the stored payload, or, by [updatePreview], given a new preview. *)
Lemma step_payload_slot st c st' n h :
  step st c = Some st' →
  slot (payloadRegistry st') n h = slot (payloadRegistry st) n h
  ∨ slot (payloadRegistry st') n h = None
  ∨ (∃ candidate,
        writeCandidate st c = Some candidate
        ∧ slot (payloadRegistry st') n h =
            Some (reconcileTerminalState candidate (slot (payloadRegistry st) n h)))
  ∨ (∃ current url,
        c = UpdatePreview n h url
        ∧ slot (payloadRegistry st) n h = Some current
        ∧ slot (payloadRegistry st') n h = Some (current |> set_previewUrl (Some url))).
Proof.
  destruct c as [n0 psd|n0 t|n0 h0 ctx|n0 h0 p mo|n0 h0 p|n0 h0 p url|n0 h0 partial
                |n0 h0 x|n0 h0 x|n0 h0|n0 ctx|n0 h0 url|n0|n0 h0|]; simpl;
    try (intros [= <-]; by left).
  - (* registerPayload *)
    intros [= <-]. simpl. rewrite slot_registerPayload.
    case_decide as Heq; [|by left]. destruct Heq as [<- <-].
    right; right; left. by eexists.
  - (* updatePayload *)
    unfold updatePayload.
    destruct (updatePayload_updater n0 h0 partial (payloadRegistry st)) as [u|] eqn:Hu;
      simpl; [|done].
    intros [= <-]. simpl.
    destruct (slot_updatePayload _ _ _ _ _ n h Hu) as [Hsame|(candidate & Hcand & Hnew)];
      [by left|].
    rewrite Hnew. case_decide as Heq; [|by left]. destruct Heq as [<- <-].
    right; right; left. exists candidate. split; [|done].
    destruct (slot (payloadRegistry st) n0 h0); [by subst|done].
  - (* updatePreview *)
    intros [= <-]. simpl. rewrite slot_updatePreview.
    case_decide as Heq; [|by left]. destruct Heq as [<- <-].
    destruct (slot (payloadRegistry st) n0 h0) as [current|] eqn:Hcur; simpl.
    + right; right; right. by exists current, url.
    + by left.
  - (* unregisterNode *)
    intros [= <-]. simpl. rewrite slot_dropNode. case_decide; [right|]; by left.
  - (* flushPipelineInstance *)
    intros [= <-]. simpl. rewrite slot_clearEntry. case_decide; [right|]; by left.
Qed.

(** The same for the reviewer registry, whose two writers polish the
    candidate before they reconcile. *)
Lemma step_reviewer_slot st c st' n h :
  step st c = Some st' →
  slot (reviewerRegistry st') n h = slot (reviewerRegistry st) n h
  ∨ slot (reviewerRegistry st') n h = None
  ∨ (∃ payload,
        slot (reviewerRegistry st') n h =
          Some (reconcileTerminalState (payload |> set_isPolished (Some true))
                  (slot (reviewerRegistry st) n h))).
Proof.
  destruct c as [n0 psd|n0 t|n0 h0 ctx|n0 h0 p mo|n0 h0 p|n0 h0 p url|n0 h0 partial
                |n0 h0 x|n0 h0 x|n0 h0|n0 ctx|n0 h0 url|n0|n0 h0|]; simpl;
    try (intros [= <-]; by left).
  - (* registerReviewerPayload *)
    intros [= <-]. simpl. rewrite slot_registerReviewerPayload.
    case_decide as Heq; [|by left]. destruct Heq as [<- <-].
    right; right. by eexists.
  - (* registerPreviewPayload *)
    intros [= <-]. simpl. rewrite slot_registerReviewerPayload.
    case_decide as Heq; [|by left]. destruct Heq as [<- <-].
    right; right. by eexists.
  - (* updatePayload *)
    unfold updatePayload.
    destruct (updatePayload_updater n0 h0 partial (payloadRegistry st)); simpl; [|done].
    intros [= <-]. by left.
  - (* unregisterNode *)
    intros [= <-]. simpl. rewrite slot_dropNode. case_decide; [right|]; by left.
  - (* flushPipelineInstance *)
    intros [= <-]. simpl. rewrite slot_clearEntry. case_decide; [right|]; by left.
Qed.

End Writers.

(** ** Mutation goes through the engine, with one exception *)

Section Lifecycle.

Context `{ET : ExternalTypes}.

Implicit Types st : ProceduralState.
Implicit Types incoming current : TransformedPayload.
Implicit Types stored : option TransformedPayload.

Lemma isStale_has_current incoming stored :
  isStale incoming stored = true → ∃ current, stored = Some current.
Proof. destruct stored; [by eexists|done]. Qed.

(** What every result of the engine looks like: it is the stored payload, or
    it has no preview, or it is a confirmed success, or generation is allowed. *)
Lemma reconcile_shape incoming stored :
  let r := reconcileTerminalState incoming stored in
  stored = Some r ∨ previewUrl r = None
  ∨ (status r = "success" ∧ isConfirmed r = Some true)
  ∨ generationAllowed r = Some true.
Proof.
  unfold reconcileTerminalState.
  destruct (isReset incoming); [by right; left|].
  destruct (isHardStop incoming); [by right; left|].
  destruct (isAutoConfirm incoming); [by right; right; left|].
  destruct (isStale incoming stored) eqn:Hstale.
  { destruct (isStale_has_current _ _ Hstale) as [current ->]. by left. }
  destruct (String.eqb (status incoming) "idle"); [by right; left|].
  destruct (JS.truthy_bool (isSynthesizing incoming)); [by right; right; right|].
  destruct (isLayoutUpdate incoming stored); by right; right; right.
Qed.

(** C4, as amended. Whatever the command, the payload at an address of the
    payload registry afterwards is the one from before, or is gone, or is what
    the engine makes of a candidate and the stored payload, or, after
    [updatePreview], is the stored payload with the new [previewUrl] and
    nothing else changed; at an address of the reviewer registry it is the one
    from before, or is gone, or is what the engine makes of a polished
    candidate and the stored payload. *)
Theorem payloads_change_through_engine_or_preview st c st' n h :
  step st c = Some st' →
  (slot (payloadRegistry st') n h = slot (payloadRegistry st) n h
   ∨ slot (payloadRegistry st') n h = None
   ∨ (∃ candidate,
         slot (payloadRegistry st') n h =
           Some (reconcileTerminalState candidate (slot (payloadRegistry st) n h)))
   ∨ (∃ current url,
         c = UpdatePreview n h url
         ∧ slot (payloadRegistry st) n h = Some current
         ∧ slot (payloadRegistry st') n h = Some (current |> set_previewUrl (Some url))))
  ∧ (slot (reviewerRegistry st') n h = slot (reviewerRegistry st) n h
     ∨ slot (reviewerRegistry st') n h = None
     ∨ (∃ payload,
           slot (reviewerRegistry st') n h =
             Some (reconcileTerminalState (payload |> set_isPolished (Some true))
                     (slot (reviewerRegistry st) n h)))).
Proof.
  intros Hstep. split.
  - destruct (step_payload_slot _ _ _ n h Hstep)
      as [H|[H|[(candidate & _ & H)|H]]]; eauto 6.
  - apply (step_reviewer_slot _ _ _ n h Hstep).
Qed.

End Lifecycle.

(** C4, the counterexample. [updatePreview] on a reset slot stores a payload
    that differs from the stored one and that the engine returns for no
    candidate at all. *)
Lemma updatePreview_goes_around_the_engine :
  step Samples.afterReset (UpdatePreview "n" "h" "blob:1")
    = Some Samples.previewedAfterReset
  ∧ slot (payloadRegistry Samples.previewedAfterReset) "n" "h"
    ≠ slot (payloadRegistry Samples.afterReset) "n" "h"
  ∧ ∀ candidate,
      slot (payloadRegistry Samples.previewedAfterReset) "n" "h"
      ≠ Some (reconcileTerminalState candidate
                (slot (payloadRegistry Samples.afterReset) "n" "h")).
Proof.
  split; [done|]. split; [done|].
  intros candidate Heq.
  destruct (reconcile_shape candidate (slot (payloadRegistry Samples.afterReset) "n" "h"))
    as [H|[H|[[H _]|H]]];
    revert Heq H;
    generalize (reconcileTerminalState candidate
                  (slot (payloadRegistry Samples.afterReset) "n" "h"));
    intros r [= <-]; done.
Qed.

Lemma payloads_change_through_engine_or_preview_witness :
  step Samples.afterReset (UpdatePreview "n" "h" "blob:1")
    = Some Samples.previewedAfterReset
  ∧ (slot (reviewerRegistry Samples.previewedAfterReset) "n" "h"
       = slot (reviewerRegistry Samples.afterReset) "n" "h"
     ∨ slot (reviewerRegistry Samples.previewedAfterReset) "n" "h" = None
     ∨ (∃ payload,
           slot (reviewerRegistry Samples.previewedAfterReset) "n" "h" =
             Some (reconcileTerminalState (payload |> set_isPolished (Some true))
                     (slot (reviewerRegistry Samples.afterReset) "n" "h")))).
Proof.
  split; [reflexivity|].
  apply (payloads_change_through_engine_or_preview
           Samples.afterReset (UpdatePreview "n" "h" "blob:1")
           Samples.previewedAfterReset "n" "h" eq_refl).
Defined.

(** ** The reviewer registry *)

Section Reviewer.

Context `{ET : ExternalTypes}.

Implicit Types st : ProceduralState.
Implicit Types stored : option TransformedPayload.

(** The engine keeps the invariant of the reviewer registry when it is fed a
    polished candidate: only the reset rule takes the polish away, and the
    synthesis start carries over what the stored payload had. *)
Lemma reconcile_polished (payload : TransformedPayload) stored :
  (∀ current, stored = Some current → polishedOrReset current) →
  polishedOrReset (reconcileTerminalState (payload |> set_isPolished (Some true)) stored).
Proof.
  intros Hstored. unfold reconcileTerminalState.
  set (incoming := payload |> set_isPolished (Some true)).
  destruct (isReset incoming) eqn:Hreset; [by right|].
  destruct (isHardStop incoming); [by left|].
  destruct (isAutoConfirm incoming); [by left|].
  destruct (isStale incoming stored) eqn:Hstale.
  { destruct (isStale_has_current _ _ Hstale) as [current ->]. by apply Hstored. }
  destruct (String.eqb (status incoming) "idle"); [by left|].
  destruct (JS.truthy_bool (isSynthesizing incoming)).
  { destruct stored as [current|]; [|by left].
    destruct (Hstored current eq_refl) as [Hpol|[Hpol Hres]]; [by left|by right]. }
  destruct (isLayoutUpdate incoming stored); by left.
Qed.

(** A run of commands from the initial state ends in a reachable state. *)
Lemma run_reachable st cs st' :
  reachable st → run st cs = Some st' → reachable st'.
Proof.
  revert st. induction cs as [|c cs IH]; intros st Hst; simpl.
  - by intros [= <-].
  - destruct (step st c) as [st1|] eqn:Hstep; simpl; [|done].
    apply IH. by apply (reachable_step st c).
Qed.

(** C2, as amended. In every reachable state every payload of the reviewer
    registry has [isPolished = true], unless it is a reset payload (status
    idle, no generation id), which has [isPolished = false]. *)
Theorem reviewer_entries_polished_or_reset st :
  reachable st →
  ∀ n h p, slot (reviewerRegistry st) n h = Some p → polishedOrReset p.
Proof.
  induction 1 as [|st c st' _ IH Hstep]; intros n h p Hp; [done|].
  destruct (step_reviewer_slot _ _ _ n h Hstep) as [Hsame|[Hgone|[payload Hnew]]].
  - rewrite Hsame in Hp. by eapply IH.
  - by rewrite Hgone in Hp.
  - rewrite Hnew in Hp. injection Hp as <-.
    apply reconcile_polished. intros current Hcur. by eapply IH.
Qed.

End Reviewer.

(** C2, the counterexample. An idle payload without generation id, handed to
    [registerReviewerPayload] on the empty store, is stored unpolished. *)
Lemma reviewer_stores_unpolished_reset :
  reachable Samples.reviewedReset
  ∧ isPolished <$> slot (reviewerRegistry Samples.reviewedReset) "n" "h"
    = Some (Some false).
Proof.
  split; [|done].
  apply (reachable_step initialState
           (RegisterReviewerPayload "n" "h" (Samples.bare "idle")));
    [apply reachable_init|reflexivity].
Qed.

Lemma reviewer_entries_polished_or_reset_witness :
  reachable Samples.reviewed
  ∧ slot (reviewerRegistry Samples.reviewed) "n" "h"
    = Some (Samples.generated "g1" |> set_isPolished (Some true)
              |> set_isConfirmed (Some false) |> set_generationAllowed (Some true))
  ∧ polishedOrReset (Samples.generated "g1" |> set_isPolished (Some true)
                       |> set_isConfirmed (Some false)
                       |> set_generationAllowed (Some true)).
Proof.
  assert (Hreach : reachable Samples.reviewed).
  { apply (reachable_step initialState
             (RegisterReviewerPayload "n" "h" (Samples.generated "g1")));
      [apply reachable_init|reflexivity]. }
  split; [exact Hreach|]. split; [reflexivity|].
  apply (reviewer_entries_polished_or_reset Samples.reviewed Hreach "n" "h").
  reflexivity.
Defined.

(** ** Generation ids along the writes to one slot *)

Section Generations.

Context `{ET : ExternalTypes}.

Implicit Types st : ProceduralState.
Implicit Types incoming current : TransformedPayload.

Lemma or_string_cases (a b : option string) :
  (JS.truthy_string a = true ∧ JS.or_string a b = a)
  ∨ (JS.truthy_string a = false ∧ JS.or_string a b = b).
Proof. unfold JS.or_string. destruct (JS.truthy_string a); [by left|by right]. Qed.

(** Past the hard stop and the auto-confirmation the engine never hands back
    a generation id that is strictly below the stored one. *)
Lemma reconcile_generation_not_below incoming current g0 g1 :
  bypassesStaleGuard incoming = false →
  generationId current = Some g0 → g0 ≠ EmptyString →
  generationId (reconcileTerminalState incoming (Some current)) = Some g1 →
  g1 ≠ EmptyString →
  JS.string_lt g1 g0 = false.
Proof.
  unfold bypassesStaleGuard. intros [Hgate Hforced]%orb_false_elim Hg0 Hne0.
  assert (Hkeep : ∀ g, generationId incoming = Some g → g ≠ EmptyString →
                       isStale incoming (Some current) = false →
                       JS.string_lt g g0 = false).
  { intros g Hg Hne Hstale. by rewrite <- (isStale_present incoming current g g0). }
  unfold reconcileTerminalState. rewrite Hgate, Hforced.
  destruct (isReset incoming) eqn:Hreset.
  { simpl. intros Hg1 Hne1. apply truthy_string_Some in Hne1. rewrite <- Hg1 in Hne1.
    by rewrite (present_not_reset _ Hne1) in Hreset. }
  destruct (isStale incoming (Some current)) eqn:Hstale.
  { simpl. rewrite Hg0. intros [= <-] _. apply string_lt_irrefl. }
  destruct (String.eqb (status incoming) "idle").
  { simpl. intros Hg1 Hne1. by apply Hkeep. }
  destruct (JS.truthy_bool (isSynthesizing incoming)).
  { simpl. rewrite Hg0. intros [= <-] _. apply string_lt_irrefl. }
  destruct (isLayoutUpdate incoming (Some current)).
  { simpl. rewrite Hg0. intros [= <-] _. apply string_lt_irrefl. }
  simpl.
  destruct (or_string_cases (generationId incoming) (generationId current))
    as [[_ ->]|[_ ->]].
  - intros Hg1 Hne1. by apply Hkeep.
  - rewrite Hg0. intros [= <-] _. apply string_lt_irrefl.
Qed.

(** C3, as amended. Take a command whose candidate for the payload registry,
    if it has one, is neither gated nor a forced auto-confirmation. If an
    address holds a payload with a generation id before the command and one
    with a generation id after it, the id after is not strictly less than the
    id before; and a candidate with the stored id is not stale. *)
Theorem accepted_generations_do_not_decrease st c st' n h p0 p1 g0 g1 :
  step st c = Some st' →
  (∀ candidate, writeCandidate st c = Some candidate →
                bypassesStaleGuard candidate = false) →
  slot (payloadRegistry st) n h = Some p0 →
  slot (payloadRegistry st') n h = Some p1 →
  generationId p0 = Some g0 → g0 ≠ EmptyString →
  generationId p1 = Some g1 → g1 ≠ EmptyString →
  JS.string_lt g1 g0 = false
  ∧ (∀ candidate, generationId candidate = Some g0 →
                  isStale candidate (Some p0) = false).
Proof.
  intros Hstep Hguarded Hp0 Hp1 Hg0 Hne0 Hg1 Hne1. split.
  - destruct (step_payload_slot _ _ _ n h Hstep)
      as [Hsame|[Hgone|[(candidate & Hcand & Hnew)|(current & url & _ & Hcur & Hnew)]]].
    + rewrite Hsame, Hp0 in Hp1. injection Hp1 as <-.
      rewrite Hg0 in Hg1. injection Hg1 as <-. apply string_lt_irrefl.
    + by rewrite Hgone in Hp1.
    + rewrite Hnew, Hp0 in Hp1. injection Hp1 as <-.
      by apply (reconcile_generation_not_below candidate p0); [apply Hguarded|..].
    + rewrite Hnew in Hp1. injection Hp1 as <-.
      rewrite Hp0 in Hcur. injection Hcur as <-. simpl in Hg1.
      rewrite Hg0 in Hg1. injection Hg1 as <-. apply string_lt_irrefl.
  - intros candidate Hcand.
    rewrite (isStale_present candidate p0 g0 g0) by done. apply string_lt_irrefl.
Qed.

End Generations.

(** C3, the counterexample. The address (n, h) holds a payload of run 2; a
    write of run 1 with the master override off is stored, and 1 is strictly
    less than 2. *)
Lemma gated_write_lowers_generation :
  step (Samples.holding "2") Samples.gatedWrite
    = Some (registerPayload "n" "h" (Samples.generated "1") (Some false)
              (Samples.holding "2"))
  ∧ generationId <$> slot (payloadRegistry (Samples.holding "2")) "n" "h"
    = Some (Some "2")
  ∧ generationId
      <$> slot (payloadRegistry
                  (registerPayload "n" "h" (Samples.generated "1") (Some false)
                     (Samples.holding "2"))) "n" "h"
    = Some (Some "1")
  ∧ JS.string_lt "1" "2" = true.
Proof. done. Qed.

Lemma accepted_generations_do_not_decrease_witness :
  step (Samples.holding "2") (RegisterPayload "n" "h" (Samples.generated "3") None)
    = Some (registerPayload "n" "h" (Samples.generated "3") None (Samples.holding "2"))
  ∧ JS.string_lt "3" "2" = false.
Proof.
  split; [reflexivity|].
  apply (accepted_generations_do_not_decrease
           (Samples.holding "2") (RegisterPayload "n" "h" (Samples.generated "3") None)
           (registerPayload "n" "h" (Samples.generated "3") None (Samples.holding "2"))
           "n" "h"
           (Samples.generated "2" |> set_isConfirmed (Some false)
              |> set_generationAllowed (Some true))
           (Samples.generated "3" |> set_isConfirmed (Some false)
              |> set_generationAllowed (Some true))
           "2" "3").
  - reflexivity.
  - intros candidate [= <-]. reflexivity.
  - vm_compute. reflexivity.
  - vm_compute. reflexivity.
  - reflexivity.
  - discriminate.
  - reflexivity.
  - discriminate.
Defined.

(** ** Change suppression *)

Section Suppression.

Context `{ET : ExternalTypes}.

Lemma registerSlot_skips {V : Type} `{EqDecision V}
    (prev : gmap string (gmap string V)) n h (v : V) :
  slot prev n h = Some v → registerSlot_updater n h v prev = Bail.
Proof.
  intros Hcur. unfold registerSlot_updater. rewrite nodeRecord_lookup.
  by rewrite decide_True.
Qed.

Lemma storeReconciled_skips (prev : gmap string (gmap string TransformedPayload))
    n h nodeRecord current (r : TransformedPayload) :
  current = Some r → storeReconciled n h nodeRecord current r prev = Bail.
Proof. intros Hcur. unfold storeReconciled. by rewrite decide_True. Qed.

(** C9, as amended. The writers of the template, knowledge, resolved,
    analysis, feedback and preview registries hand back the previous state,
    and so signal nothing, when the stored value is the candidate; the writers
    of the payload and reviewer registries do so when the stored payload is
    what the engine makes of the candidate ([updatePayload] included, on the
    merge of the partial into the stored payload); [registerPsd] compares nothing and
    always installs a new registry, whose content is the previous one when the
    stored asset is the candidate. *)
Theorem writers_skip_unchanged_values :
  (∀ n t prev, prev !! n = Some t → registerTemplate_updater n t prev = Bail)
  ∧ (∀ n k prev, prev !! n = Some k → registerKnowledge_updater n k prev = Bail)
  ∧ (∀ n h v prev, slot prev n h = Some v → registerResolved_updater n h v prev = Bail)
  ∧ (∀ n h v prev, slot prev n h = Some v → registerAnalysis_updater n h v prev = Bail)
  ∧ (∀ n h v prev, slot prev n h = Some v → registerFeedback_updater n h v prev = Bail)
  ∧ (∀ n h v prev, slot prev n h = Some v → registerPreview_updater n h v prev = Bail)
  ∧ (∀ n h payload masterOverride prev,
        slot prev n h =
          Some (reconcileTerminalState (effectivePayload payload masterOverride)
                  (slot prev n h)) →
        registerPayload_updater n h payload masterOverride prev = Bail)
  ∧ (∀ n h payload prev,
        slot prev n h =
          Some (reconcileTerminalState (payload |> set_isPolished (Some true))
                  (slot prev n h)) →
        registerReviewerPayload_updater n h payload prev = Bail)
  ∧ (∀ n h partial prev current,
        slot prev n h = Some current →
        reconcileTerminalState (mergePartial current partial) (Some current) = current →
        updatePayload_updater n h partial prev = Some Bail)
  ∧ (∀ n psd prev,
        registerPsd_updater n psd prev = Next (<[n := psd]> prev)
        ∧ (prev !! n = Some psd → <[n := psd]> prev = prev)).
Proof.
  repeat split.
  - intros n t prev Hcur. unfold registerTemplate_updater. by rewrite decide_True.
  - intros n k prev Hcur. unfold registerKnowledge_updater. by rewrite decide_True.
  - intros n h v prev. apply registerSlot_skips.
  - intros n h v prev. apply registerSlot_skips.
  - intros n h v prev. apply registerSlot_skips.
  - intros n h v prev. apply registerSlot_skips.
  - intros n h payload masterOverride prev Hcur.
    unfold registerPayload_updater. cbv zeta. rewrite nodeRecord_lookup.
    by apply storeReconciled_skips.
  - intros n h payload prev Hcur.
    unfold registerReviewerPayload_updater. cbv zeta. rewrite nodeRecord_lookup.
    by apply storeReconciled_skips.
  - intros n h partial prev current Hcur Hfix.
    unfold updatePayload_updater. cbv zeta. rewrite nodeRecord_lookup, Hcur, Hfix.
    f_equal. by apply storeReconciled_skips.
  - intros Hcur. by apply insert_id.
Qed.

End Suppression.

(** C9, the counterexample. [registerPsd] with the very asset that is stored
    installs a new registry and notifies; and [registerPayload] with the very
    payload that is stored at (n, h) changes what is stored there. *)
Lemma registerPsd_never_skips :
  let prev : gmap string (@Psd sampleTypes) := {[ "n" := tt ]} in
  prev !! "n" = Some tt
  ∧ notifies (registerPsd_updater (ET := sampleTypes) "n" tt prev) = true
  ∧ slot (payloadRegistry Samples.synthesizingAfterReset) "n" "h"
    = Some Samples.startedOnReset
  ∧ slot (payloadRegistry
            (registerPayload "n" "h" Samples.startedOnReset None
               Samples.synthesizingAfterReset)) "n" "h"
    ≠ Some Samples.startedOnReset.
Proof.
  split; [done|]. split; [done|]. split.
  - vm_compute. reflexivity.
  - vm_compute. discriminate.
Qed.

Lemma writers_skip_unchanged_values_witness :
  let prev : gmap string (gmap string string) := {[ "n" := {[ "h" := "blob:1" ]} ]} in
  slot prev "n" "h" = Some "blob:1"
  ∧ registerPreview_updater "n" "h" "blob:1" prev = Bail.
Proof.
  intros prev. split; [reflexivity|].
  destruct (writers_skip_unchanged_values (ET := sampleTypes))
    as (_ & _ & _ & _ & _ & Hpreview & _).
  apply Hpreview. reflexivity.
Defined.

(** ** Writing the same payload again *)

Section Repetition.

Context `{ET : ExternalTypes}.

Implicit Types incoming current : TransformedPayload.
Implicit Types stored : option TransformedPayload.

Lemma or_string_absorb (a b : option string) :
  JS.or_string a (JS.or_string a b) = JS.or_string a b.
Proof. unfold JS.or_string. by destruct (JS.truthy_string a) eqn:Ha; rewrite ?Ha. Qed.

Lemma or_string_absorb_r (a b : option string) :
  JS.or_string (JS.or_string a b) b = JS.or_string a b.
Proof.
  unfold JS.or_string. destruct (JS.truthy_string a) eqn:Ha; [by rewrite Ha|].
  by destruct (JS.truthy_string b).
Qed.

Lemma or_object_absorb {A : Type} (a b : option A) :
  JS.or_object a (JS.or_object a b) = JS.or_object a b.
Proof. by destruct a. Qed.

Lemma or_else_absorb (a b : option string) :
  JS.or_else (JS.or_string a (Some (JS.or_else (JS.or_string a b) EmptyString)))
    EmptyString
  = JS.or_else (JS.or_string a b) EmptyString.
Proof.
  unfold JS.or_string. destruct (JS.truthy_string a) eqn:Ha; [done|].
  simpl. by destruct (String.eqb _ EmptyString) eqn:He; [apply String.eqb_eq in He|].
Qed.

(** The guard looks at the stored payload through its generation id only. *)
Lemma isStale_by_generation incoming stored stored' :
  stored ≫= generationId = stored' ≫= generationId →
  isStale incoming stored = isStale incoming stored'.
Proof. unfold isStale. by intros ->. Qed.

Lemma isLayoutUpdate_by_generation incoming stored stored' :
  stored ≫= generationId = stored' ≫= generationId →
  isLayoutUpdate incoming stored = isLayoutUpdate incoming stored'.
Proof. unfold isLayoutUpdate. by intros ->. Qed.

(** No payload is stale against its own generation id, nor against a stored
    payload without one. *)
Lemma isStale_own_generation incoming current :
  generationId current = generationId incoming →
  isStale incoming (Some current) = false.
Proof.
  unfold isStale. simpl. intros ->. destruct (generationId incoming) as [g|]; [|done].
  rewrite string_lt_irrefl. by rewrite andb_false_r.
Qed.

Lemma isStale_absent incoming stored :
  JS.truthy_string (generationId incoming) = false ∨
  JS.truthy_string (stored ≫= generationId) = false →
  isStale incoming stored = false.
Proof.
  unfold isStale. intros [->| ->]; [by rewrite andb_false_r|done].
Qed.

(** The engine absorbs its own result: run again on the same incoming payload
    and on what it returned, it returns that again. *)
Lemma reconcile_absorbs_own_result incoming stored :
  reconcileTerminalState incoming (Some (reconcileTerminalState incoming stored))
  = reconcileTerminalState incoming stored.
Proof.
  destruct (isReset incoming) eqn:Hreset.
  { by rewrite !(reconcile_reset _ _ Hreset). }
  destruct (isHardStop incoming) eqn:Hgate.
  { by rewrite !(reconcile_hardStop _ _ Hreset Hgate). }
  destruct (isAutoConfirm incoming) eqn:Hforced.
  { unfold reconcileTerminalState. rewrite Hreset, Hgate, Hforced. simpl.
    by rewrite !or_string_absorb. }
  destruct (isStale incoming stored) eqn:Hstale.
  { destruct (isStale_has_current _ _ Hstale) as [current ->].
    by rewrite !(reconcile_stale _ _ Hreset Hgate Hforced Hstale). }
  unfold reconcileTerminalState. rewrite Hreset, Hgate, Hforced, Hstale.
  destruct (String.eqb (status incoming) "idle") eqn:Hidle.
  { by rewrite isStale_own_generation. }
  destruct (JS.truthy_bool (isSynthesizing incoming)) eqn:Hsynth.
  { erewrite (isStale_by_generation _ (Some _) stored) by done.
    rewrite Hstale. simpl.
    rewrite or_string_absorb, or_else_absorb, or_object_absorb.
    by destruct stored. }
  destruct (isLayoutUpdate incoming stored) eqn:Hlayout.
  { erewrite (isStale_by_generation _ (Some _) stored) by done.
    erewrite (isLayoutUpdate_by_generation _ (Some _) stored) by done.
    rewrite Hstale, Hlayout. simpl. by rewrite or_string_absorb_r. }
  destruct (or_string_cases (generationId incoming) (stored ≫= generationId))
    as [[Hgen Hor]|[Hgen Hor]].
  - rewrite isStale_own_generation by (simpl; by rewrite Hor).
    assert (∀ current, isLayoutUpdate incoming (Some current) = false) as ->.
    { intros current. unfold isLayoutUpdate. by rewrite Hgen. }
    simpl. rewrite !or_string_absorb.
    by destruct (JS.truthy_bool (isTransient incoming)), (isConfirmed incoming).
  - erewrite (isStale_by_generation _ (Some _) stored) by (simpl; by rewrite Hor).
    erewrite (isLayoutUpdate_by_generation _ (Some _) stored)
      by (simpl; by rewrite Hor).
    rewrite Hstale, Hlayout. simpl. rewrite !or_string_absorb.
    by destruct (JS.truthy_bool (isTransient incoming)), (isConfirmed incoming).
Qed.

(** X1. What the engine makes of a payload and the result of its own
    previous run on that payload is that result again: a second delivery of
    the same payload changes nothing. *)
Theorem reconcile_same_incoming_twice incoming stored :
  reconcileTerminalState incoming (Some (reconcileTerminalState incoming stored))
  = reconcileTerminalState incoming stored.
Proof. apply reconcile_absorbs_own_result. Qed.

Implicit Types st : ProceduralState.

Lemma registerPayload_updater_again
    (prev : gmap string (gmap string TransformedPayload)) n h payload masterOverride :
  registerPayload_updater n h payload masterOverride
    (commit prev (registerPayload_updater n h payload masterOverride prev)) = Bail.
Proof.
  set (prev1 := commit prev _).
  assert (Hslot : slot prev1 n h =
            Some (reconcileTerminalState (effectivePayload payload masterOverride)
                    (slot prev n h))).
  { subst prev1. rewrite slot_registerPayload. by rewrite decide_True. }
  unfold registerPayload_updater. cbv zeta. rewrite nodeRecord_lookup, Hslot.
  apply storeReconciled_skips. by rewrite reconcile_absorbs_own_result.
Qed.

Lemma registerReviewerPayload_updater_again
    (prev : gmap string (gmap string TransformedPayload)) n h payload :
  registerReviewerPayload_updater n h payload
    (commit prev (registerReviewerPayload_updater n h payload prev)) = Bail.
Proof.
  set (prev1 := commit prev _).
  assert (Hslot : slot prev1 n h =
            Some (reconcileTerminalState (payload |> set_isPolished (Some true))
                    (slot prev n h))).
  { subst prev1. rewrite slot_registerReviewerPayload. by rewrite decide_True. }
  unfold registerReviewerPayload_updater. cbv zeta. rewrite nodeRecord_lookup, Hslot.
  apply storeReconciled_skips. by rewrite reconcile_absorbs_own_result.
Qed.

Lemma registerSlot_updater_again {V : Type} `{EqDecision V}
    (prev : gmap string (gmap string V)) n h (v : V) :
  registerSlot_updater n h v (commit prev (registerSlot_updater n h v prev)) = Bail.
Proof.
  apply registerSlot_skips. rewrite slot_registerSlot. by rewrite decide_True.
Qed.

(** X2. [registerPayload] called a second time with the same arguments bails
    out: the updater hands back the previous registry, nothing is signalled
    and the state is the one after the first call. *)
Theorem registerPayload_twice st n h payload masterOverride :
  let st1 := registerPayload n h payload masterOverride st in
  registerPayload_updater n h payload masterOverride (payloadRegistry st1) = Bail
  ∧ registerPayload n h payload masterOverride st1 = st1.
Proof.
  intros st1. subst st1.
  pose proof (registerPayload_updater_again (payloadRegistry st) n h payload
                masterOverride) as Hbail.
  split; [exact Hbail|].
  unfold registerPayload, setPayloadRegistry. simpl. by rewrite Hbail.
Qed.

(** X3. The same for the reviewer registry: a second [registerReviewerPayload]
    with the same arguments, and a second [registerPreviewPayload] with the
    same arguments, leave the state as the first call left it, both of the
    latter's updaters bailing out. *)
Theorem reviewer_writers_twice st n h payload renderUrl :
  (let st1 := registerReviewerPayload n h payload st in
   registerReviewerPayload_updater n h payload (reviewerRegistry st1) = Bail
   ∧ registerReviewerPayload n h payload st1 = st1)
  ∧ (let st1 := registerPreviewPayload n h payload renderUrl st in
     registerPreview_updater n h renderUrl (previewRegistry st1) = Bail
     ∧ registerReviewerPayload_updater n h payload (reviewerRegistry st1) = Bail
     ∧ registerPreviewPayload n h payload renderUrl st1 = st1).
Proof.
  pose proof (registerReviewerPayload_updater_again (reviewerRegistry st) n h payload)
    as Hrev.
  pose proof (registerSlot_updater_again (previewRegistry st) n h renderUrl) as Hprv.
  split.
  - split; [exact Hrev|].
    unfold registerReviewerPayload, setReviewerRegistry. simpl. by rewrite Hrev.
  - split; [exact Hprv|]. split; [exact Hrev|].
    unfold registerPreviewPayload, setReviewerRegistry, setPreviewRegistry. simpl.
    fold (registerPreview_updater n h renderUrl).
    unfold registerPreview_updater. by rewrite Hrev, Hprv.
Qed.

End Repetition.

(** ** Further properties of the engine *)

Section Rules.

Context `{ET : ExternalTypes}.

Implicit Types st : ProceduralState.
Implicit Types incoming current : TransformedPayload.
Implicit Types stored : option TransformedPayload.

Lemma reconcile_autoConfirm incoming stored :
  isReset incoming = false → isHardStop incoming = false →
  isAutoConfirm incoming = true →
  reconcileTerminalState incoming stored =
    incoming |> set_status "success" |> set_isConfirmed (Some true)
             |> set_isTransient (Some false)
             |> set_isSynthesizing (isSynthesizing incoming)
             |> set_previewUrl (JS.or_string (previewUrl incoming) (stored ≫= previewUrl))
             |> set_sourceReference
                  (JS.or_string (sourceReference incoming) (stored ≫= sourceReference))
             |> set_generationId
                  (JS.or_string (generationId incoming) (stored ≫= generationId)).
Proof. unfold reconcileTerminalState. by intros -> -> ->. Qed.

Lemma isReset_effectivePayload (payload : TransformedPayload) masterOverride :
  isReset (effectivePayload payload masterOverride) = isReset payload.
Proof. by destruct masterOverride as [[]|]. Qed.

Lemma filter_keepsLayer_no_additive (ls : list Layer) :
  Forall (λ l, ¬ (isGenerative l = true ∧ hasSyntheticId l = true))
         (List.filter keepsLayer ls).
Proof.
  apply Forall_forall. intros l [_ Hkeep]%list_elem_of_In%filter_In [Hgen Hsyn].
  rewrite keepsLayer_retainedByGate in Hkeep. unfold retainedByGate in Hkeep.
  by rewrite Hgen, Hsyn in Hkeep.
Qed.

(** X4. Whatever the payload and whatever is stored, [registerPayload] with
    the master override off stores a payload that is gated and has no
    preview, no confirmation, no transient or synthesizing flag and no pending
    generation; unless the payload is a reset, none of its layers is a
    generative layer with a synthetic id. *)
Theorem masterOverride_off_strips st n h payload :
  ∃ r, slot (payloadRegistry (registerPayload n h payload (Some false) st)) n h = Some r
       ∧ generationAllowed r = Some false
       ∧ previewUrl r = None ∧ isConfirmed r = Some false
       ∧ isTransient r = Some false ∧ isSynthesizing r = Some false
       ∧ requiresGeneration r = Some false
       ∧ (isReset payload = false →
          Forall (λ l, ¬ (isGenerative l = true ∧ hasSyntheticId l = true)) (layers r)).
Proof.
  eexists. split.
  { unfold registerPayload. simpl. rewrite slot_registerPayload.
    by rewrite decide_True. }
  set (incoming := effectivePayload payload (Some false)).
  assert (Hgate : isHardStop incoming = true) by done.
  assert (Hreset : isReset incoming = isReset payload)
    by apply isReset_effectivePayload.
  destruct (isReset payload).
  - rewrite (reconcile_reset _ _ Hreset). by repeat split.
  - rewrite (reconcile_hardStop _ _ Hreset Hgate).
    simpl. repeat split. intros _. apply filter_keepsLayer_no_additive.
Qed.

(** X5. A stored generation id is lost only to a reset or to a gated write:
    when the stored payload has a generation id and the incoming payload is
    neither a reset nor gated, the result has a generation id. *)
Theorem generation_id_survives incoming current :
  isReset incoming = false → isHardStop incoming = false →
  JS.truthy_string (generationId current) = true →
  JS.truthy_string (generationId (reconcileTerminalState incoming (Some current))) = true.
Proof.
  intros Hreset Hgate Hcur.
  assert (Hor : JS.truthy_string
                  (JS.or_string (generationId incoming) (generationId current)) = true).
  { by destruct (or_string_cases (generationId incoming) (generationId current))
      as [[? ->]|[? ->]]. }
  unfold reconcileTerminalState. rewrite Hreset, Hgate.
  destruct (isAutoConfirm incoming); [done|].
  destruct (isStale incoming (Some current)); [done|].
  destruct (String.eqb (status incoming) "idle") eqn:Hidle.
  { simpl. unfold isReset in Hreset. rewrite Hidle in Hreset.
    by apply negb_false_iff in Hreset. }
  destruct (JS.truthy_bool (isSynthesizing incoming)); [done|].
  by destruct (isLayoutUpdate incoming (Some current)).
Qed.

(** X6. A synthesis start over a stored payload keeps the stored payload: when
    the incoming payload is synthesizing, not idle, not gated, not forced and
    not stale, the result has the status, layers, flags, directives, preview
    and generation id of the stored payload, with [isSynthesizing] and
    [generationAllowed] true; of the incoming payload only the source
    reference, target container and metrics can show. *)
Theorem synthesis_start_keeps_stored incoming current :
  String.eqb (status incoming) "idle" = false →
  isHardStop incoming = false → isAutoConfirm incoming = false →
  isStale incoming (Some current) = false →
  JS.truthy_bool (isSynthesizing incoming) = true →
  reconcileTerminalState incoming (Some current) =
    current
      |> set_isSynthesizing (Some true)
      |> set_generationAllowed (Some true)
      |> set_sourceReference
           (JS.or_string (sourceReference incoming) (sourceReference current))
      |> set_targetContainer
           (Some (JS.or_else
                    (JS.or_string (targetContainer incoming) (targetContainer current))
                    EmptyString))
      |> set_metrics (JS.or_object (metrics incoming) (metrics current)).
Proof.
  intros Hidle Hgate Hforced Hstale Hsynth.
  unfold reconcileTerminalState, isReset.
  rewrite Hidle, Hgate, Hforced, Hstale, Hsynth. simpl. by destruct current.
Qed.

(** X7. A layout update keeps the generated asset: when the incoming payload
    has no generation id while the stored one has, and the incoming payload is
    not idle, not gated, not forced and not synthesizing, the result has the
    preview, generation id, confirmation, transient and synthesizing flags of
    the stored payload and every other field, save the source reference and
    the gate, from the incoming payload. *)
Theorem layout_update_keeps_generated_asset incoming current :
  String.eqb (status incoming) "idle" = false →
  isHardStop incoming = false → isAutoConfirm incoming = false →
  JS.truthy_bool (isSynthesizing incoming) = false →
  JS.truthy_string (generationId incoming) = false →
  JS.truthy_string (generationId current) = true →
  reconcileTerminalState incoming (Some current) =
    incoming
      |> set_previewUrl (previewUrl current)
      |> set_generationId (generationId current)
      |> set_isSynthesizing (isSynthesizing current)
      |> set_isConfirmed (isConfirmed current)
      |> set_isTransient (isTransient current)
      |> set_sourceReference
           (JS.or_string (sourceReference current) (sourceReference incoming))
      |> set_generationAllowed (Some true).
Proof.
  intros Hidle Hgate Hforced Hsynth Hinc Hcur.
  unfold reconcileTerminalState, isReset.
  rewrite Hidle, Hgate, Hforced, Hsynth.
  rewrite isStale_absent by (by left).
  unfold isLayoutUpdate. simpl. by rewrite Hinc, Hcur.
Qed.

(** X8. A forced payload that asks for generation and is neither a reset nor
    gated is stored as a confirmed success, never transient, whatever its own
    status and confirmation were; its preview, source reference and generation
    id are its own when it has them and those of the stored payload otherwise,
    so a stale generation id does not stop it. *)
Theorem forced_payload_is_confirmed incoming stored :
  isReset incoming = false → isHardStop incoming = false →
  isForced incoming = true →
  JS.truthy_bool (requiresGeneration incoming) = true →
  let r := reconcileTerminalState incoming stored in
  status r = "success" ∧ isConfirmed r = Some true ∧ isTransient r = Some false
  ∧ previewUrl r = JS.or_string (previewUrl incoming) (stored ≫= previewUrl)
  ∧ sourceReference r
    = JS.or_string (sourceReference incoming) (stored ≫= sourceReference)
  ∧ generationId r = JS.or_string (generationId incoming) (stored ≫= generationId)
  ∧ layers r = layers incoming ∧ metrics r = metrics incoming
  ∧ isSynthesizing r = isSynthesizing incoming.
Proof.
  intros Hreset Hgate Hforced Hreq r. subst r.
  rewrite reconcile_autoConfirm; [done..|].
  unfold isAutoConfirm. by rewrite Hforced, Hreq.
Qed.

End Rules.

(** ** Registries as maps: what the updaters amount to *)

Section Updaters.

Context {V : Type}.

Implicit Types prev : gmap string (gmap string V).

(** [clearEntry] applies [delete] to the record of the node, if there is one. *)
Lemma commit_clearEntry prev n h :
  commit prev (clearEntry_updater n h prev) = alter (delete h) n prev.
Proof.
  rewrite alter_alt. unfold clearEntry_updater. by destruct (prev !! n).
Qed.

Lemma clearEntry_twice prev n h :
  alter (delete h) n (alter (delete h) n prev) = alter (delete h) n prev.
Proof.
  rewrite alter_alter_eq. apply alter_ext. intros rec _. simpl.
  apply delete_delete_eq.
Qed.

Lemma clearEntry_swap prev n1 h1 n2 h2 :
  alter (delete h1) n1 (alter (delete h2) n2 prev)
  = alter (delete h2) n2 (alter (delete h1) n1 prev).
Proof.
  destruct (decide (n1 = n2)) as [->|Hne].
  - rewrite !alter_alter_eq. apply alter_ext. intros rec _. simpl.
    apply delete_delete.
  - by apply alter_alter_ne.
Qed.

(** A slot read through the two levels of a registry. *)
Lemma slot_writeSlot prev n h (v : V) n' h' :
  slot (writeSlot n h v prev) n' h' =
    if decide (n = n' ∧ h = h') then Some v else slot prev n' h'.
Proof. apply slot_write. Qed.

(** Writing what is there already is no write. *)
Lemma writeSlot_same prev n h (v : V) :
  slot prev n h = Some v → writeSlot n h v prev = prev.
Proof.
  unfold slot, writeSlot. destruct (prev !! n) as [rec|] eqn:Hrec; simpl; [|done].
  intros Hv. rewrite (insert_id rec) by done. by apply insert_id.
Qed.

(** Two writes to different addresses can be swapped. *)
Lemma writeSlot_swap prev n1 h1 (v1 : V) n2 h2 (v2 : V) :
  ¬ (n1 = n2 ∧ h1 = h2) →
  writeSlot n1 h1 v1 (writeSlot n2 h2 v2 prev)
  = writeSlot n2 h2 v2 (writeSlot n1 h1 v1 prev).
Proof.
  intros Hne. unfold writeSlot. destruct (decide (n1 = n2)) as [->|Hn].
  - rewrite !lookup_insert_eq, !insert_insert_eq. simpl. f_equal.
    apply insert_insert_ne. intros ->. by apply Hne.
  - rewrite !(lookup_insert_ne _ n2 n1), !(lookup_insert_ne _ n1 n2) by done.
    by apply insert_insert_ne.
Qed.

Context `{EqDecision V}.

Lemma commit_registerSlot prev n h (v : V) :
  commit prev (registerSlot_updater n h v prev) = writeSlot n h v prev.
Proof.
  unfold registerSlot_updater. rewrite nodeRecord_lookup.
  case_decide as Hcur; simpl; [|done]. symmetry. by apply writeSlot_same.
Qed.

End Updaters.

(** ** The registries that store verbatim *)

Section Verbatim.

Context `{ET : ExternalTypes}.

Implicit Types st : ProceduralState.

(** X9. After [registerResolved], [registerAnalysis] or [registerFeedback]
    the address written reads the value handed in, whether the write was
    carried out or skipped, and every other address of that registry reads as
    before. *)
Theorem slot_registries_store_verbatim st n h
    (context : MappingContext) (strategy : LayoutStrategy) (feedback : FeedbackStrategy) :
  (∀ n' h', slot (resolvedRegistry (registerResolved n h context st)) n' h' =
              if decide (n = n' ∧ h = h') then Some context
              else slot (resolvedRegistry st) n' h')
  ∧ (∀ n' h', slot (analysisRegistry (registerAnalysis n h strategy st)) n' h' =
                if decide (n = n' ∧ h = h') then Some strategy
                else slot (analysisRegistry st) n' h')
  ∧ (∀ n' h', slot (feedbackRegistry (registerFeedback n h feedback st)) n' h' =
                if decide (n = n' ∧ h = h') then Some feedback
                else slot (feedbackRegistry st) n' h').
Proof. repeat split; intros n' h'; apply slot_registerSlot. Qed.

(** X10. After [registerPsd], [registerTemplate] or [registerKnowledge] the
    node written reads the value handed in and every other node reads as
    before. *)
Theorem node_registries_store_verbatim st n
    (psd : Psd) (template : TemplateMetadata) (context : KnowledgeContext) :
  (∀ n', psdRegistry (registerPsd n psd st) !! n' =
           if decide (n = n') then Some psd else psdRegistry st !! n')
  ∧ (∀ n', templateRegistry (registerTemplate n template st) !! n' =
             if decide (n = n') then Some template else templateRegistry st !! n')
  ∧ (∀ n', knowledgeRegistry (registerKnowledge n context st) !! n' =
             if decide (n = n') then Some context else knowledgeRegistry st !! n').
Proof.
  repeat split; intros n'; simpl.
  - apply lookup_insert.
  - unfold registerTemplate_updater. case_decide as Hcur; simpl.
    + case_decide as Heq; [by subst|done].
    + apply lookup_insert.
  - unfold registerKnowledge_updater. case_decide as Hcur; simpl.
    + case_decide as Heq; [by subst|done].
    + apply lookup_insert.
Qed.

Lemma slot_clearFeedback (prev : gmap string (gmap string FeedbackStrategy)) n h n' h' :
  slot (commit prev (clearFeedback_updater n h prev)) n' h' =
    if decide (n = n' ∧ h = h') then None else slot prev n' h'.
Proof.
  unfold clearFeedback_updater. destruct (prev !! n) as [rec|] eqn:Hrec; simpl.
  - destruct (rec !! h) eqn:Hcur; simpl.
    + by apply slot_clear.
    + case_decide as Heq; [|done]. destruct Heq as [<- <-].
      unfold slot. by rewrite Hrec.
  - case_decide as Heq; [|done]. destruct Heq as [<- <-]. by apply slot_None_node.
Qed.

(** X11. [clearFeedback] empties the address it is given and no other; when
    the address holds nothing it bails out and the state is untouched; in no
    case does it take the node out of the registry. *)
Theorem clearFeedback_clears_one_slot st n h :
  (∀ n' h', slot (feedbackRegistry (clearFeedback n h st)) n' h' =
              if decide (n = n' ∧ h = h') then None
              else slot (feedbackRegistry st) n' h')
  ∧ (slot (feedbackRegistry st) n h = None →
     clearFeedback_updater n h (feedbackRegistry st) = Bail
     ∧ clearFeedback n h st = st)
  ∧ dom (feedbackRegistry (clearFeedback n h st)) = dom (feedbackRegistry st).
Proof.
  split; [|split].
  - intros n' h'. apply slot_clearFeedback.
  - intros Hnone.
    assert (Hbail : clearFeedback_updater n h (feedbackRegistry st) = Bail).
    { unfold clearFeedback_updater, slot in *.
      destruct (feedbackRegistry st !! n) as [rec|]; simpl in *; [|done].
      by rewrite Hnone. }
    split; [done|]. unfold clearFeedback, setFeedbackRegistry.
    rewrite Hbail. by destruct st.
  - simpl. unfold clearFeedback_updater.
    destruct (feedbackRegistry st !! n) as [rec|] eqn:Hrec; simpl; [|done].
    destruct (rec !! h); simpl; [|done]. by apply dom_insert_lookup_L.
Qed.

(** X12. [registerFeedback] followed by [clearFeedback] at an address that
    held nothing gives back every reading of the feedback registry, but not
    the registry: the node stays behind with a record, empty if the node was
    unknown before. *)
Theorem clearFeedback_after_registerFeedback st n h (feedback : FeedbackStrategy) :
  slot (feedbackRegistry st) n h = None →
  let st' := clearFeedback n h (registerFeedback n h feedback st) in
  (∀ n' h', slot (feedbackRegistry st') n' h' = slot (feedbackRegistry st) n' h')
  ∧ feedbackRegistry st' !! n = Some (default ∅ (feedbackRegistry st !! n)).
Proof.
  intros Hnone st'. subst st'. split.
  - intros n' h'. unfold clearFeedback, setFeedbackRegistry. cbn [feedbackRegistry].
    rewrite slot_clearFeedback.
    unfold registerFeedback, setFeedbackRegistry. cbn [feedbackRegistry].
    unfold registerFeedback_updater. rewrite slot_registerSlot.
    case_decide as Heq; [|done]. destruct Heq as [<- <-]. by rewrite Hnone.
  - unfold clearFeedback, registerFeedback, setFeedbackRegistry.
    cbn [feedbackRegistry].
    unfold registerFeedback_updater. rewrite commit_registerSlot.
    unfold clearFeedback_updater, writeSlot. rewrite lookup_insert_eq.
    rewrite lookup_insert_eq. simpl. rewrite lookup_insert_eq.
    f_equal. rewrite delete_insert_eq. apply delete_id.
    by rewrite nodeRecord_lookup.
Qed.

End Verbatim.

(** ** How the operations compose *)

(** Reduce the projections of a state that a chain of [setState] calls built,
    and nothing else. *)
Ltac cells :=
  unfold setPsdRegistry, setTemplateRegistry, setResolvedRegistry, setPayloadRegistry,
    setReviewerRegistry, setPreviewRegistry, setAnalysisRegistry, setFeedbackRegistry,
    setKnowledgeRegistry, setGlobalVersion;
  cbn [psdRegistry templateRegistry resolvedRegistry payloadRegistry reviewerRegistry
       previewRegistry analysisRegistry feedbackRegistry knowledgeRegistry globalVersion].

Section Composition.

Context `{ET : ExternalTypes}.

Implicit Types st : ProceduralState.
Implicit Types prev : gmap string (gmap string TransformedPayload).

(** Two states with the same ten cells are the same state. *)
Lemma state_ext st1 st2 :
  psdRegistry st1 = psdRegistry st2 → templateRegistry st1 = templateRegistry st2 →
  resolvedRegistry st1 = resolvedRegistry st2 →
  payloadRegistry st1 = payloadRegistry st2 →
  reviewerRegistry st1 = reviewerRegistry st2 →
  previewRegistry st1 = previewRegistry st2 →
  analysisRegistry st1 = analysisRegistry st2 →
  feedbackRegistry st1 = feedbackRegistry st2 →
  knowledgeRegistry st1 = knowledgeRegistry st2 →
  globalVersion st1 = globalVersion st2 →
  st1 = st2.
Proof. destruct st1, st2. simpl. by intros -> -> -> -> -> -> -> -> -> ->. Qed.

Lemma commit_storeReconciled prev n h (r : TransformedPayload) :
  commit prev (storeReconciled n h (default ∅ (prev !! n)) (slot prev n h) r prev)
  = writeSlot n h r prev.
Proof.
  unfold storeReconciled. case_decide as Hcur; simpl; [|done].
  symmetry. by apply writeSlot_same.
Qed.

(** Skipped or not, [registerPayload] leaves the registry with the reconciled
    payload written at the address. *)
Lemma commit_registerPayload prev n h payload masterOverride :
  commit prev (registerPayload_updater n h payload masterOverride prev)
  = writeSlot n h
      (reconcileTerminalState (effectivePayload payload masterOverride) (slot prev n h))
      prev.
Proof.
  unfold registerPayload_updater. cbv zeta. rewrite nodeRecord_lookup.
  apply commit_storeReconciled.
Qed.

(** X13. Writes to different addresses are independent: two [registerPayload]
    calls to different addresses lead to the same state in either order. *)
Theorem registerPayload_commutes st n1 h1 p1 mo1 n2 h2 p2 mo2 :
  ¬ (n1 = n2 ∧ h1 = h2) →
  registerPayload n1 h1 p1 mo1 (registerPayload n2 h2 p2 mo2 st)
  = registerPayload n2 h2 p2 mo2 (registerPayload n1 h1 p1 mo1 st).
Proof.
  intros Hne. unfold registerPayload. cells. f_equal.
  rewrite !commit_registerPayload, !slot_writeSlot.
  rewrite decide_False by (intros [-> ->]; by apply Hne).
  rewrite decide_False by done.
  by apply writeSlot_swap.
Qed.

(** X14. [flushPipelineInstance] is idempotent, and two flushes, of the same
    node or of different nodes, lead to the same state in either order. *)
Theorem flushPipelineInstance_idempotent_commutes st n1 h1 n2 h2 :
  flushPipelineInstance n1 h1 (flushPipelineInstance n1 h1 st)
  = flushPipelineInstance n1 h1 st
  ∧ flushPipelineInstance n1 h1 (flushPipelineInstance n2 h2 st)
    = flushPipelineInstance n2 h2 (flushPipelineInstance n1 h1 st).
Proof.
  split.
  - apply state_ext; simpl; rewrite ?commit_clearEntry; try done;
      apply clearEntry_twice.
  - apply state_ext; simpl; rewrite ?commit_clearEntry; try done;
      apply clearEntry_swap.
Qed.

(** X15. [flushPipelineInstance] never takes a node out of a registry: in each
    of the six slot-scoped registries the record of the node is the old one
    without the flushed handle, empty if that was its only one, and the
    registry knows the same nodes as before. *)
Theorem flushPipelineInstance_keeps_node st n h :
  let st' := flushPipelineInstance n h st in
  (resolvedRegistry st' !! n = delete h <$> resolvedRegistry st !! n
   ∧ payloadRegistry st' !! n = delete h <$> payloadRegistry st !! n
   ∧ reviewerRegistry st' !! n = delete h <$> reviewerRegistry st !! n
   ∧ previewRegistry st' !! n = delete h <$> previewRegistry st !! n
   ∧ analysisRegistry st' !! n = delete h <$> analysisRegistry st !! n
   ∧ feedbackRegistry st' !! n = delete h <$> feedbackRegistry st !! n)
  ∧ (dom (resolvedRegistry st') = dom (resolvedRegistry st)
     ∧ dom (payloadRegistry st') = dom (payloadRegistry st)
     ∧ dom (reviewerRegistry st') = dom (reviewerRegistry st)
     ∧ dom (previewRegistry st') = dom (previewRegistry st)
     ∧ dom (analysisRegistry st') = dom (analysisRegistry st)
     ∧ dom (feedbackRegistry st') = dom (feedbackRegistry st)).
Proof.
  intros st'. subst st'. simpl. rewrite !commit_clearEntry. split.
  - repeat split; apply lookup_alter_eq.
  - repeat split; apply dom_alter_L.
Qed.

End Composition.

(** ** Commands seen from the other nodes, and the version counter *)

Section Frames.

Context `{ET : ExternalTypes}.

Implicit Types st : ProceduralState.
Implicit Types prev : gmap string (gmap string TransformedPayload).

Lemma commit_registerReviewerPayload prev n h payload :
  commit prev (registerReviewerPayload_updater n h payload prev)
  = writeSlot n h
      (reconcileTerminalState (payload |> set_isPolished (Some true)) (slot prev n h))
      prev.
Proof.
  unfold registerReviewerPayload_updater. cbv zeta. rewrite nodeRecord_lookup.
  apply commit_storeReconciled.
Qed.

(** [updatePreview] applies the override to the payload at the address, if
    there is one. *)
Lemma commit_updatePreview prev n h url :
  commit prev (updatePreview_updater n h url prev)
  = alter (alter (set_previewUrl (Some url)) h) n prev.
Proof.
  rewrite alter_alt. unfold updatePreview_updater.
  destruct (prev !! n) as [rec|] eqn:Hrec; simpl; [|done].
  rewrite alter_alt. destruct (rec !! h) as [current|] eqn:Hcur; simpl.
  - case_decide as Hurl; simpl; [|done].
    rewrite set_previewUrl_same by done. by rewrite (insert_id rec), insert_id.
  - by rewrite insert_id.
Qed.

Lemma commit_clearFeedback (prev : gmap string (gmap string FeedbackStrategy)) n h :
  commit prev (clearFeedback_updater n h prev) = alter (delete h) n prev.
Proof.
  rewrite alter_alt. unfold clearFeedback_updater.
  destruct (prev !! n) as [rec|] eqn:Hrec; simpl; [|done].
  destruct (rec !! h) eqn:Hcur; simpl; [done|].
  by rewrite delete_id, insert_id.
Qed.

Lemma commit_updatePayload prev n h partial u :
  updatePayload_updater n h partial prev = Some u →
  commit prev u = prev ∨ ∃ r, commit prev u = writeSlot n h r prev.
Proof.
  unfold updatePayload_updater. cbv zeta. rewrite nodeRecord_lookup.
  destruct (slot prev n h) as [current|] eqn:Hslot.
  - intros [= <-]. right. eexists. rewrite <- Hslot. apply commit_storeReconciled.
  - destruct (_ && _); [intros [= <-]; by left|].
    destruct (asPayload partial) as [merged|]; simpl; [|done].
    intros [= <-]. right. eexists. rewrite <- Hslot. apply commit_storeReconciled.
Qed.

Lemma lookup_writeSlot_ne {V : Type} (prev : gmap string (gmap string V)) n h v m :
  m ≠ n → writeSlot n h v prev !! m = prev !! m.
Proof. intros Hm. unfold writeSlot. by rewrite lookup_insert_ne. Qed.

Lemma lookup_registerTemplate_ne (prev : gmap string TemplateMetadata) n t m :
  m ≠ n → commit prev (registerTemplate_updater n t prev) !! m = prev !! m.
Proof.
  intros Hm. unfold registerTemplate_updater. case_decide; simpl; [done|].
  by rewrite lookup_insert_ne.
Qed.

Lemma lookup_registerKnowledge_ne (prev : gmap string KnowledgeContext) n k m :
  m ≠ n → commit prev (registerKnowledge_updater n k prev) !! m = prev !! m.
Proof.
  intros Hm. unfold registerKnowledge_updater. case_decide; simpl; [done|].
  by rewrite lookup_insert_ne.
Qed.

(** A writing command leaves the records of the other nodes and the version
    alone. *)
Lemma step_other_nodes st c st1 n m :
  writesNode c = Some n → step st c = Some st1 → m ≠ n →
  (psdRegistry st1 !! m = psdRegistry st !! m
   ∧ templateRegistry st1 !! m = templateRegistry st !! m
   ∧ resolvedRegistry st1 !! m = resolvedRegistry st !! m
   ∧ payloadRegistry st1 !! m = payloadRegistry st !! m
   ∧ reviewerRegistry st1 !! m = reviewerRegistry st !! m
   ∧ previewRegistry st1 !! m = previewRegistry st !! m
   ∧ analysisRegistry st1 !! m = analysisRegistry st !! m
   ∧ feedbackRegistry st1 !! m = feedbackRegistry st !! m
   ∧ knowledgeRegistry st1 !! m = knowledgeRegistry st !! m)
  ∧ globalVersion st1 = globalVersion st.
Proof.
  intros Hnode Hstep Hm.
  destruct c as [n0 psd|n0 t|n0 h0 ctx|n0 h0 p mo|n0 h0 p|n0 h0 p url|n0 h0 partial
                |n0 h0 x|n0 h0 x|n0 h0|n0 ctx|n0 h0 url|n0|n0 h0|];
    simpl in Hnode; try discriminate; injection Hnode as ->; simpl in Hstep.
  - injection Hstep as <-. simpl. repeat split. by rewrite lookup_insert_ne.
  - injection Hstep as <-. simpl. repeat split. by apply lookup_registerTemplate_ne.
  - injection Hstep as <-. simpl. repeat split.
    unfold registerResolved_updater. rewrite commit_registerSlot.
    by apply lookup_writeSlot_ne.
  - injection Hstep as <-. simpl. repeat split.
    rewrite commit_registerPayload. by apply lookup_writeSlot_ne.
  - injection Hstep as <-. simpl. repeat split.
    rewrite commit_registerReviewerPayload. by apply lookup_writeSlot_ne.
  - injection Hstep as <-. simpl. repeat split.
    + rewrite commit_registerReviewerPayload. by apply lookup_writeSlot_ne.
    + unfold registerPreview_updater. rewrite commit_registerSlot.
      by apply lookup_writeSlot_ne.
  - unfold updatePayload in Hstep.
    destruct (updatePayload_updater n h0 partial (payloadRegistry st)) as [u|] eqn:Hu;
      simpl in Hstep; [|done].
    injection Hstep as <-. simpl. repeat split.
    destruct (commit_updatePayload _ _ _ _ _ Hu) as [->|[r ->]]; [done|].
    by apply lookup_writeSlot_ne.
  - injection Hstep as <-. simpl. repeat split.
    unfold registerAnalysis_updater. rewrite commit_registerSlot.
    by apply lookup_writeSlot_ne.
  - injection Hstep as <-. simpl. repeat split.
    unfold registerFeedback_updater. rewrite commit_registerSlot.
    by apply lookup_writeSlot_ne.
  - injection Hstep as <-. simpl. repeat split.
    rewrite commit_clearFeedback. by apply lookup_alter_ne.
  - injection Hstep as <-. simpl. repeat split. by apply lookup_registerKnowledge_ne.
  - injection Hstep as <-. simpl. repeat split.
    rewrite commit_updatePreview. by apply lookup_alter_ne.
  - injection Hstep as <-. simpl. rewrite !commit_clearEntry.
    repeat split; by apply lookup_alter_ne.
Qed.

(** X16. A command that writes to node [n] changes nothing under any other
    node, in none of the nine registries, and leaves [globalVersion] as it
    is. *)
Theorem writes_leave_other_nodes st c st1 n m :
  writesNode c = Some n → step st c = Some st1 → m ≠ n →
  (psdRegistry st1 !! m = psdRegistry st !! m
   ∧ templateRegistry st1 !! m = templateRegistry st !! m
   ∧ resolvedRegistry st1 !! m = resolvedRegistry st !! m
   ∧ payloadRegistry st1 !! m = payloadRegistry st !! m
   ∧ reviewerRegistry st1 !! m = reviewerRegistry st !! m
   ∧ previewRegistry st1 !! m = previewRegistry st !! m
   ∧ analysisRegistry st1 !! m = analysisRegistry st !! m
   ∧ feedbackRegistry st1 !! m = feedbackRegistry st !! m
   ∧ knowledgeRegistry st1 !! m = knowledgeRegistry st !! m)
  ∧ globalVersion st1 = globalVersion st.
Proof. apply step_other_nodes. Qed.

Lemma delete_agree {V : Type} (r1 r2 : gmap string V) n :
  (∀ m, m ≠ n → r1 !! m = r2 !! m) → delete n r1 = delete n r2.
Proof.
  intros Hagree. apply map_eq. intros m. destruct (decide (n = m)) as [->|Hm].
  - by rewrite !lookup_delete_eq.
  - rewrite !lookup_delete_ne by done. by apply Hagree.
Qed.

Lemma step_write_version st c st1 n :
  writesNode c = Some n → step st c = Some st1 → globalVersion st1 = globalVersion st.
Proof.
  intros Hnode Hstep.
  destruct c; simpl in Hnode; try discriminate; simpl in Hstep;
    try (by injection Hstep as <-).
  unfold updatePayload in Hstep.
  destruct (updatePayload_updater _ _ _ _); simpl in Hstep; [|done].
  by injection Hstep as <-.
Qed.

(** X17. The teardown of a node wipes out every earlier write to it: after
    any command that writes to node [n], [unregisterNode n] leads to the state
    it would have led to without that command. *)
Theorem unregisterNode_absorbs_writes st c st1 n :
  writesNode c = Some n → step st c = Some st1 →
  unregisterNode n st1 = unregisterNode n st.
Proof.
  intros Hnode Hstep.
  pose proof (unregisterNode_cells st n) as H. cbv zeta in H.
  destruct H as (H1 & H2 & H3 & H4 & H5 & H6 & H7 & H8 & H9).
  pose proof (unregisterNode_cells st1 n) as H. cbv zeta in H.
  destruct H as (K1 & K2 & K3 & K4 & K5 & K6 & K7 & K8 & K9).
  assert (Hframe := λ m Hm, proj1 (step_other_nodes st c st1 n m Hnode Hstep Hm)).
  apply state_ext.
  - rewrite H1, K1. apply delete_agree. intros m Hm. apply (Hframe m Hm).
  - rewrite H2, K2. apply delete_agree. intros m Hm. apply (Hframe m Hm).
  - rewrite H3, K3. apply delete_agree. intros m Hm. apply (Hframe m Hm).
  - rewrite H4, K4. apply delete_agree. intros m Hm. apply (Hframe m Hm).
  - rewrite H5, K5. apply delete_agree. intros m Hm. apply (Hframe m Hm).
  - rewrite H6, K6. apply delete_agree. intros m Hm. apply (Hframe m Hm).
  - rewrite H7, K7. apply delete_agree. intros m Hm. apply (Hframe m Hm).
  - rewrite H8, K8. apply delete_agree. intros m Hm. apply (Hframe m Hm).
  - rewrite H9, K9. apply delete_agree. intros m Hm. apply (Hframe m Hm).
  - simpl. f_equal. by apply (step_write_version st c st1 n).
Qed.

(** X18. A second teardown of the same node removes nothing more: it leaves
    the nine registries as the first left them and bumps the version once
    more. *)
Theorem unregisterNode_twice st n :
  unregisterNode n (unregisterNode n st) = triggerGlobalRefresh (unregisterNode n st).
Proof.
  pose proof (unregisterNode_cells (unregisterNode n st) n) as H. cbv zeta in H.
  destruct H as (K1 & K2 & K3 & K4 & K5 & K6 & K7 & K8 & K9).
  pose proof (unregisterNode_cells st n) as H. cbv zeta in H.
  destruct H as (H1 & H2 & H3 & H4 & H5 & H6 & H7 & H8 & H9).
  apply state_ext.
  - rewrite K1. simpl. apply delete_delete_eq.
  - rewrite K2. simpl. apply delete_delete_eq.
  - rewrite K3. simpl. apply delete_delete_eq.
  - rewrite K4. simpl. apply delete_delete_eq.
  - rewrite K5. simpl. apply delete_delete_eq.
  - rewrite K6, H6. simpl. rewrite commit_dropNodeIfPresent. apply delete_delete_eq.
  - rewrite K7. simpl. apply delete_delete_eq.
  - rewrite K8. simpl. apply delete_delete_eq.
  - rewrite K9, H9. simpl. rewrite commit_dropNodeIfPresent. apply delete_delete_eq.
  - reflexivity.
Qed.

End Frames.

(** ** The version counter, [updatePayload] and [updatePreview] *)

Section Counter.

Context `{ET : ExternalTypes}.

Implicit Types st : ProceduralState.

Lemma step_globalVersion st c st1 :
  step st c = Some st1 →
  globalVersion st1 = globalVersion st + (if bumpsVersion c then 1 else 0).
Proof.
  destruct c; simpl; try (intros [= <-]; simpl; lia).
  unfold updatePayload. destruct (updatePayload_updater _ _ _ _); simpl; [|done].
  intros [= <-]. simpl. lia.
Qed.

(** X19. Along any run of commands [globalVersion] grows by the number of
    [unregisterNode] and [triggerGlobalRefresh] calls in the run and by
    nothing else; in particular it never decreases. *)
Theorem globalVersion_counts_bumps st cs st' :
  run st cs = Some st' →
  globalVersion st' = globalVersion st + Z.of_nat (length (List.filter bumpsVersion cs))
  ∧ globalVersion st ≤ globalVersion st'.
Proof.
  revert st. induction cs as [|c cs IH]; intros st; simpl.
  - intros [= <-]. lia.
  - destruct (step st c) as [st1|] eqn:Hstep; simpl; [|done].
    intros Hrun. destruct (IH st1 Hrun) as [Hcount Hle].
    pose proof (step_globalVersion _ _ _ Hstep) as Hone.
    destruct (bumpsVersion c); simpl; lia.
Qed.

(** X20. [updatePayload] on an address that holds nothing, with a partial that
    has neither a source container nor a preview, is a silent no-op; on an
    address that holds a payload it never fails and does what
    [registerPayload] does with the partial merged into the stored payload. *)
Theorem updatePayload_guard_and_merge st n h partial :
  (slot (payloadRegistry st) n h = None →
   JS.truthy_string (mjoin (partial_sourceContainer partial)) = false →
   JS.truthy_string (mjoin (partial_previewUrl partial)) = false →
   updatePayload n h partial st = Some st)
  ∧ (∀ current, slot (payloadRegistry st) n h = Some current →
       updatePayload n h partial st =
         Some (registerPayload n h (mergePartial current partial) None st)).
Proof.
  split.
  - intros Hnone Hsrc Hurl. unfold updatePayload, updatePayload_updater. cbv zeta.
    rewrite nodeRecord_lookup, Hnone, Hsrc, Hurl. simpl. by destruct st.
  - intros current Hcur. unfold updatePayload, updatePayload_updater. cbv zeta.
    rewrite nodeRecord_lookup, Hcur. simpl. f_equal.
    unfold registerPayload, setPayloadRegistry, registerPayload_updater. cbv zeta.
    rewrite nodeRecord_lookup, Hcur. done.
Qed.

(** X21. [updatePreview] touches the preview of the payload at its address
    and nothing else in the store; on an address that holds nothing it bails
    out, and called again with the same arguments it bails out as well. *)
Theorem updatePreview_sets_preview_only st n h url :
  (∀ n' h', slot (payloadRegistry (updatePreview n h url st)) n' h' =
              if decide (n = n' ∧ h = h')
              then set_previewUrl (Some url) <$> slot (payloadRegistry st) n h
              else slot (payloadRegistry st) n' h')
  ∧ (slot (payloadRegistry st) n h = None → updatePreview n h url st = st)
  ∧ updatePreview n h url (updatePreview n h url st) = updatePreview n h url st
  ∧ updatePreview_updater n h url (payloadRegistry (updatePreview n h url st)) = Bail.
Proof.
  assert (Hset : ∀ p : TransformedPayload,
             set_previewUrl (Some url) (set_previewUrl (Some url) p)
             = set_previewUrl (Some url) p) by done.
  assert (Htwice : alter (alter (set_previewUrl (Some url)) h) n
                     (alter (alter (set_previewUrl (Some url)) h) n (payloadRegistry st))
                   = alter (alter (set_previewUrl (Some url)) h) n (payloadRegistry st)).
  { rewrite alter_alter_eq. apply alter_ext. intros rec _. simpl.
    rewrite alter_alter_eq. apply alter_ext. intros p _. apply Hset. }
  split; [|split; [|split]].
  - intros n' h'. apply slot_updatePreview.
  - intros Hnone. apply state_ext; try done. simpl. rewrite commit_updatePreview.
    apply map_eq. intros m. rewrite lookup_alter. case_decide as Hm; [|done].
    subst m. unfold slot in Hnone.
    destruct (payloadRegistry st !! n) as [rec|]; simpl in *; [|done].
    f_equal. apply map_eq. intros k. rewrite lookup_alter.
    case_decide as Hk; [|done]. subst k. by rewrite Hnone.
  - apply state_ext; try done. simpl. by rewrite !commit_updatePreview.
  - simpl. rewrite commit_updatePreview.
    set (r := alter _ n (payloadRegistry st)).
    unfold updatePreview_updater.
    destruct (r !! n) as [rec|] eqn:Hrec; [|done].
    destruct (rec !! h) as [p|] eqn:Hp; [|done].
    rewrite decide_True; [done|].
    subst r. rewrite lookup_alter_eq in Hrec.
    destruct (payloadRegistry st !! n) as [rec0|]; simpl in Hrec; [|done].
    injection Hrec as <-. rewrite lookup_alter_eq in Hp.
    destruct (rec0 !! h) as [p0|]; simpl in Hp; [|done]. by injection Hp as <-.
Qed.

End Counter.

(** ** The analyst node *)

Section AnalystProperties.

Context `{ET : ExternalTypes} `{AT : AnalystTypes}.

Implicit Types nds : list FlowNode.
Implicit Types st : ProceduralState.

Lemma sourceOut_inj i j : sourceOut i = sourceOut j → i = j.
Proof.
  unfold sourceOut. intros H%String.app_inj. by apply pretty_nat_inj in H.
Qed.

Lemma mergeInstance_complete (oldState s : AnalystInstanceState) :
  mergeInstance oldState (asPartialInstance s) = s.
Proof. by destruct s. Qed.

Lemma lookup_map {A B : Type} (f : A → B) (l : list A) k :
  List.map f l !! k = f <$> l !! k.
Proof. revert k. induction l as [|x l IH]; intros [|k]; simpl; done. Qed.

Lemma eqb_node_id (n : FlowNode) id :
  String.eqb (node_id n) id = bool_decide (node_id n = id).
Proof.
  destruct (String.eqb_spec (node_id n) id).
  - by rewrite bool_decide_eq_true_2.
  - by rewrite bool_decide_eq_false_2.
Qed.

Lemma instanceState_insert (data : PSDNodeData) index (s : AnalystInstanceState) j
    count rest :
  instanceState
    {| instanceCount := count;
       analystInstances := Some (<[index := s]> (default ∅ (analystInstances data)));
       data_rest := rest |} j
  = if decide (index = j) then s else instanceState data j.
Proof.
  unfold instanceState. simpl. rewrite lookup_insert. by case_decide.
Qed.

(** X22. [updateInstanceState] keeps the list of nodes in place and changes
    one instance of one node: a node with another id is handed back as it is;
    in the node with the given id the instance [index] becomes its rendered
    state (the default one if it had none) overridden by the updates, every
    other instance reads as before, and the instance count and the rest of
    the node are untouched. *)
Theorem updateInstanceState_touches_one_instance id index updates nds k n :
  nds !! k = Some n →
  ∃ n', updateInstanceState id index updates nds !! k = Some n'
        ∧ node_id n' = node_id n ∧ node_rest n' = node_rest n
        ∧ instanceCount (node_data n') = instanceCount (node_data n)
        ∧ data_rest (node_data n') = data_rest (node_data n)
        ∧ (node_id n ≠ id → n' = n)
        ∧ (node_id n = id →
           instanceState (node_data n') index
           = mergeInstance (instanceState (node_data n) index) updates
           ∧ ∀ j, j ≠ index →
               instanceState (node_data n') j = instanceState (node_data n) j).
Proof.
  intros Hk. unfold updateInstanceState. rewrite lookup_map, Hk. simpl.
  eexists. split; [reflexivity|]. rewrite eqb_node_id. case_bool_decide as Hid.
  - simpl. repeat split; try done.
    + rewrite instanceState_insert. by rewrite decide_True.
    + intros j Hj. rewrite instanceState_insert. by rewrite decide_False.
  - by repeat split.
Qed.

(** X23. [addInstance] raises the instance count of the node with the given
    id by one, counting a missing count as zero, and hands every other node
    back as it is. Since a missing or zero count renders one row, the first
    call on such a node leaves the node rendering one row; from a positive
    count on, each call adds a row. *)
Theorem addInstance_counts_from_zero id nds k n :
  nds !! k = Some n →
  ∃ n', addInstance id nds !! k = Some n'
        ∧ node_id n' = node_id n
        ∧ analystInstances (node_data n') = analystInstances (node_data n)
        ∧ (node_id n ≠ id → n' = n)
        ∧ (node_id n = id →
           instanceCount (node_data n')
           = Some (or_number (instanceCount (node_data n)) 0 + 1)
           ∧ (or_number (instanceCount (node_data n)) 0 = 0 →
              renderedInstances (node_data n) = 1
              ∧ renderedInstances (node_data n') = 1)
           ∧ (0 < or_number (instanceCount (node_data n)) 0 →
              renderedInstances (node_data n')
              = renderedInstances (node_data n) + 1)).
Proof.
  intros Hk. unfold addInstance. rewrite lookup_map, Hk. simpl.
  eexists. split; [reflexivity|]. rewrite eqb_node_id. case_bool_decide as Hid.
  - simpl. split; [done|]. split; [done|]. split; [done|]. intros _.
    split; [done|]. split.
    + intros Hzero. unfold renderedInstances. simpl. rewrite Hzero. split; [|done].
      unfold or_number in *. destruct (instanceCount (node_data n)) as [c|]; [|done].
      destruct (Z.eqb_spec c 0); [done|lia].
    + intros Hpos. unfold renderedInstances, or_number in *. simpl.
      destruct (instanceCount (node_data n)) as [c|]; [|lia].
      destruct (Z.eqb_spec c 0); [lia|]. destruct (Z.eqb_spec (c + 1) 0); lia.
  - by repeat split.
Qed.

(** X24. [handleReset] of instance [index] of node [id] empties the output
    slot of that instance in the six slot-scoped registries and leaves the
    output slots of the other instances as they are: different instances
    never share a slot name. In the list of nodes, the instance of every node
    with that id reads the default state afterwards. *)
Theorem handleReset_resets_one_instance id index nds st :
  let world' := handleReset id index (nds, st) in
  (slot (resolvedRegistry world'.2) id (sourceOut index) = None
   ∧ slot (payloadRegistry world'.2) id (sourceOut index) = None
   ∧ slot (reviewerRegistry world'.2) id (sourceOut index) = None
   ∧ slot (previewRegistry world'.2) id (sourceOut index) = None
   ∧ slot (analysisRegistry world'.2) id (sourceOut index) = None
   ∧ slot (feedbackRegistry world'.2) id (sourceOut index) = None)
  ∧ (∀ j, j ≠ index →
       slot (resolvedRegistry world'.2) id (sourceOut j)
       = slot (resolvedRegistry st) id (sourceOut j)
       ∧ slot (payloadRegistry world'.2) id (sourceOut j)
         = slot (payloadRegistry st) id (sourceOut j)
       ∧ slot (reviewerRegistry world'.2) id (sourceOut j)
         = slot (reviewerRegistry st) id (sourceOut j)
       ∧ slot (previewRegistry world'.2) id (sourceOut j)
         = slot (previewRegistry st) id (sourceOut j)
       ∧ slot (analysisRegistry world'.2) id (sourceOut j)
         = slot (analysisRegistry st) id (sourceOut j)
       ∧ slot (feedbackRegistry world'.2) id (sourceOut j)
         = slot (feedbackRegistry st) id (sourceOut j))
  ∧ (∀ k n', world'.1 !! k = Some n' → node_id n' = id →
       instanceState (node_data n') index = DEFAULT_INSTANCE_STATE).
Proof.
  intros world'. subst world'. unfold handleReset. cbn [fst snd]. split; [|split].
  - simpl. repeat split; rewrite slot_clearEntry; by rewrite decide_True.
  - intros j Hj. simpl.
    repeat split; rewrite slot_clearEntry; rewrite decide_False; try done;
      intros [_ Heq]; by apply sourceOut_inj in Heq.
  - intros k n' Hk Hid. unfold updateInstanceState in Hk.
    rewrite lookup_map in Hk. destruct (nds !! k) as [n|]; simpl in Hk; [|done].
    injection Hk as <-. rewrite eqb_node_id in *.
    case_bool_decide as Hn; simpl in *.
    + rewrite instanceState_insert, decide_True by done.
      apply mergeInstance_complete.
    + done.
Qed.

Lemma lookup_updateInstanceState id index updates nds k n :
  nds !! k = Some n → node_id n = id →
  updateInstanceState id index updates nds !! k =
    Some {| node_id := node_id n;
            node_data :=
              {| instanceCount := instanceCount (node_data n);
                 analystInstances :=
                   Some (<[index := mergeInstance (instanceState (node_data n) index)
                                      updates]>
                           (default ∅ (analystInstances (node_data n))));
                 data_rest := data_rest (node_data n) |};
            node_rest := node_rest n |}.
Proof.
  intros Hk Hid. unfold updateInstanceState. rewrite lookup_map, Hk. simpl.
  rewrite eqb_node_id. by rewrite bool_decide_eq_true_2.
Qed.

(** X25. Muting is a toggle: [handleToggleMute] on an instance, then again
    on the node as it is rendered after the first call, gives the instance
    back its mute flag, with its chat history, strategy and model untouched
    throughout. *)
Theorem handleToggleMute_twice id index nds k n :
  nds !! k = Some n → node_id n = id →
  ∃ n1 n2,
    handleToggleMute id (node_data n) index nds !! k = Some n1
    ∧ handleToggleMute id (node_data n1) index
        (handleToggleMute id (node_data n) index nds) !! k = Some n2
    ∧ isKnowledgeMuted (instanceState (node_data n1) index)
      = negb (isKnowledgeMuted (instanceState (node_data n) index))
    ∧ instanceState (node_data n2) index = instanceState (node_data n) index.
Proof.
  intros Hk Hid. unfold handleToggleMute.
  pose proof (lookup_updateInstanceState id index
    {| partial_chatHistory := None; partial_layoutStrategy := None;
       partial_selectedModel := None;
       partial_isKnowledgeMuted :=
         Some (negb (from_option isKnowledgeMuted false
                       (default ∅ (analystInstances (node_data n)) !! index))) |}
    nds k n Hk Hid) as H1.
  eexists. eexists. split; [exact H1|]. split.
  { apply (lookup_updateInstanceState id index _ _ k _ H1 Hid). }
  simpl. rewrite !instanceState_insert, !decide_True by done.
  clear H1. unfold instanceState. simpl. rewrite !lookup_insert_eq. simpl.
  destruct (default ∅ (analystInstances (node_data n)) !! index) as [s|]; simpl.
  - split; [done|]. by destruct s as [? ? ? []].
  - done.
Qed.

Lemma getSourceData_reads_slot id edges
    (resolved : gmap string (gmap string MappingContext)) index edge handle :
  incomingEdge id (sourceIn index) edges = Some edge →
  edge_sourceHandle edge = Some handle →
  getSourceData id edges resolved index =
    if String.eqb handle EmptyString then None
    else slot resolved (edge_source edge) handle.
Proof.
  intros Hedge Hhandle. unfold getSourceData. rewrite Hedge, Hhandle.
  destruct (String.eqb handle EmptyString); [done|].
  unfold slot. by destruct (resolved !! edge_source edge).
Qed.

(** X26. What the analyst node reads along its edges goes away with its
    source: once the slot at the far end of the edge into [source-in-index]
    is flushed, or the node at the far end is unregistered, [getSourceData]
    finds nothing; once the node wired to [knowledge-in] is unregistered,
    [activeKnowledge] finds nothing. Without a matching edge both find
    nothing whatever the store holds. *)
Theorem readers_follow_teardown id edges st index :
  (∀ edge handle,
     incomingEdge id (sourceIn index) edges = Some edge →
     edge_sourceHandle edge = Some handle →
     getSourceData id edges
       (resolvedRegistry (flushPipelineInstance (edge_source edge) handle st)) index = None
     ∧ getSourceData id edges
         (resolvedRegistry (unregisterNode (edge_source edge) st)) index = None)
  ∧ (∀ edge,
       incomingEdge id "knowledge-in" edges = Some edge →
       activeKnowledge id edges (knowledgeRegistry (unregisterNode (edge_source edge) st))
       = None)
  ∧ (incomingEdge id (sourceIn index) edges = None →
     getSourceData id edges (resolvedRegistry st) index = None)
  ∧ (incomingEdge id "knowledge-in" edges = None →
     activeKnowledge id edges (knowledgeRegistry st) = None).
Proof.
  split; [|split; [|split]].
  - intros edge handle Hedge Hhandle.
    rewrite !(getSourceData_reads_slot _ _ _ _ _ _ Hedge Hhandle).
    destruct (String.eqb handle EmptyString); [done|]. split.
    + simpl. rewrite slot_clearEntry. by rewrite decide_True.
    + simpl. rewrite slot_dropNode. by rewrite decide_True.
  - intros edge Hedge. unfold activeKnowledge. rewrite Hedge.
    pose proof (unregisterNode_cells st (edge_source edge)) as H. cbv zeta in H.
    destruct H as (_ & _ & _ & _ & _ & _ & _ & _ & ->). apply lookup_delete_eq.
  - intros Hnone. unfold getSourceData. by rewrite Hnone.
  - intros Hnone. unfold activeKnowledge. by rewrite Hnone.
Qed.

End AnalystProperties.

(** ** Previews and the reviewer registry *)

Section PreviewCache.

Context `{ET : ExternalTypes}.

Implicit Types st : ProceduralState.

(** X27. A cached preview never outlives its payload: in every reachable
    state, an address of the preview registry that holds an image holds a
    payload in the reviewer registry. *)
Theorem cached_preview_has_payload st :
  reachable st →
  ∀ n h url, slot (previewRegistry st) n h = Some url →
             is_Some (slot (reviewerRegistry st) n h).
Proof.
  induction 1 as [|st c st' _ IH Hstep]; intros n h url; [done|].
  destruct c as [n0 psd|n0 t|n0 h0 ctx|n0 h0 p mo|n0 h0 p|n0 h0 p url0|n0 h0 partial
                |n0 h0 x|n0 h0 x|n0 h0|n0 ctx|n0 h0 url0|n0|n0 h0|]; simpl in Hstep;
    try (injection Hstep as <-; simpl; by apply IH).
  - (* registerReviewerPayload *)
    injection Hstep as <-. simpl. rewrite slot_registerReviewerPayload.
    case_decide; [by eexists|]. by apply IH.
  - (* registerPreviewPayload *)
    injection Hstep as <-. simpl. unfold registerPreview_updater.
    rewrite slot_registerSlot, slot_registerReviewerPayload.
    case_decide; [by eexists|]. by apply IH.
  - (* updatePayload *)
    unfold updatePayload in Hstep.
    destruct (updatePayload_updater _ _ _ _); simpl in Hstep; [|done].
    injection Hstep as <-. simpl. by apply IH.
  - (* unregisterNode *)
    injection Hstep as <-. simpl. rewrite commit_dropNodeIfPresent, !slot_dropNode.
    case_decide; [done|]. by apply IH.
  - (* flushPipelineInstance *)
    injection Hstep as <-. simpl. rewrite !slot_clearEntry.
    case_decide; [done|]. by apply IH.
Qed.

End PreviewCache.

(** ** The further properties at work *)

Lemma generation_id_survives_witness :
  isReset (Samples.bare "pending") = false
  ∧ isHardStop (Samples.bare "pending") = false
  ∧ JS.truthy_string (generationId (Samples.generated "g1")) = true
  ∧ JS.truthy_string
      (generationId (reconcileTerminalState (Samples.bare "pending")
                       (Some (Samples.generated "g1")))) = true.
Proof.
  split; [reflexivity|]. split; [reflexivity|]. split; [reflexivity|].
  apply (generation_id_survives (Samples.bare "pending") (Samples.generated "g1"));
    reflexivity.
Defined.

Lemma synthesis_start_keeps_stored_witness :
  let incoming :=
    Samples.bare "pending" |> set_isSynthesizing (Some true)
      |> set_layers [Samples.additive] in
  let current := Samples.generated "g1" |> set_layers [Samples.background] in
  String.eqb (status incoming) "idle" = false
  ∧ JS.truthy_bool (isSynthesizing incoming) = true
  ∧ layers (reconcileTerminalState incoming (Some current)) = [Samples.background].
Proof.
  intros incoming current. split; [reflexivity|]. split; [reflexivity|].
  rewrite (synthesis_start_keeps_stored incoming current); reflexivity.
Defined.

Lemma layout_update_keeps_generated_asset_witness :
  let incoming := Samples.bare "success" |> set_layers [Samples.background] in
  let current :=
    Samples.generated "g1" |> set_previewUrl (Some "blob:1")
      |> set_isConfirmed (Some true) in
  JS.truthy_string (generationId incoming) = false
  ∧ JS.truthy_string (generationId current) = true
  ∧ previewUrl (reconcileTerminalState incoming (Some current)) = Some "blob:1"
  ∧ layers (reconcileTerminalState incoming (Some current)) = [Samples.background].
Proof.
  intros incoming current. split; [reflexivity|]. split; [reflexivity|].
  rewrite (layout_update_keeps_generated_asset incoming current); try reflexivity.
  by split.
Defined.

Lemma forced_payload_is_confirmed_witness :
  isForced (Samples.mandatory "1") = true
  ∧ JS.truthy_bool (requiresGeneration (Samples.mandatory "1")) = true
  ∧ status (reconcileTerminalState (Samples.mandatory "1")
              (Some (Samples.generated "2"))) = "success".
Proof.
  split; [reflexivity|]. split; [reflexivity|].
  apply (forced_payload_is_confirmed (Samples.mandatory "1")
           (Some (Samples.generated "2"))); reflexivity.
Defined.

Lemma clearFeedback_after_registerFeedback_witness :
  slot (feedbackRegistry MoreSamples.emptyStore) "n" "h" = None
  ∧ feedbackRegistry MoreSamples.feedbackCleared !! "n" = Some ∅.
Proof.
  split; [reflexivity|].
  apply (clearFeedback_after_registerFeedback MoreSamples.emptyStore "n" "h" tt).
  reflexivity.
Defined.

Lemma registerPayload_commutes_witness :
  ¬ ("n" = "n" ∧ "h" = "h2")
  ∧ registerPayload "n" "h" (Samples.generated "g1") None
      (registerPayload "n" "h2" (Samples.generated "g2") None initialState)
    = registerPayload "n" "h2" (Samples.generated "g2") None
        (registerPayload "n" "h" (Samples.generated "g1") None initialState).
Proof.
  assert (Hne : ¬ ("n" = "n" ∧ "h" = "h2")) by (intros [_ ?]; discriminate).
  split; [exact Hne|]. by apply registerPayload_commutes.
Defined.

Lemma writes_leave_other_nodes_witness :
  writesNode MoreSamples.flushCommand = Some "n"
  ∧ "m" ≠ "n"
  ∧ resolvedRegistry (flushPipelineInstance "n" "h" Samples.populated) !! "m"
    = resolvedRegistry Samples.populated !! "m".
Proof.
  split; [reflexivity|]. split; [discriminate|].
  apply (writes_leave_other_nodes Samples.populated MoreSamples.flushCommand
           (flushPipelineInstance "n" "h" Samples.populated) "n" "m");
    reflexivity || discriminate.
Defined.

Lemma unregisterNode_absorbs_writes_witness :
  writesNode (RegisterPayload "n" "h" (Samples.generated "g3") None) = Some "n"
  ∧ unregisterNode "n"
      (registerPayload "n" "h" (Samples.generated "g3") None Samples.populated)
    = unregisterNode "n" Samples.populated.
Proof.
  split; [reflexivity|].
  apply (unregisterNode_absorbs_writes Samples.populated
           (RegisterPayload "n" "h" (Samples.generated "g3") None));
    reflexivity.
Defined.

Lemma globalVersion_counts_bumps_witness :
  run MoreSamples.emptyStore MoreSamples.mixedRun = Some MoreSamples.mixedRunEnd
  ∧ globalVersion MoreSamples.mixedRunEnd = 2.
Proof.
  assert (Hrun : run MoreSamples.emptyStore MoreSamples.mixedRun
                 = Some MoreSamples.mixedRunEnd) by (vm_compute; reflexivity).
  split; [exact Hrun|].
  apply (globalVersion_counts_bumps MoreSamples.emptyStore MoreSamples.mixedRun
           MoreSamples.mixedRunEnd Hrun).
Defined.

Lemma updateInstanceState_touches_one_instance_witness :
  let nds := [MoreSamples.busyNode; MoreSamples.otherNode] in
  let nds' :=
    updateInstanceState "a" 0
      {| partial_chatHistory := None; partial_layoutStrategy := None;
         partial_selectedModel := Some gemini_3_pro_thinking;
         partial_isKnowledgeMuted := None |} nds in
  nds !! 1%nat = Some MoreSamples.otherNode
  ∧ nds' !! 1%nat = Some MoreSamples.otherNode.
Proof.
  intros nds nds'. split; [reflexivity|].
  destruct (updateInstanceState_touches_one_instance "a" 0
              {| partial_chatHistory := None; partial_layoutStrategy := None;
                 partial_selectedModel := Some gemini_3_pro_thinking;
                 partial_isKnowledgeMuted := None |}
              nds 1 MoreSamples.otherNode eq_refl)
    as (n' & Hlookup & _ & _ & _ & _ & Hother & _).
  rewrite <- (Hother ltac:(discriminate)). exact Hlookup.
Defined.

Lemma addInstance_counts_from_zero_witness :
  [MoreSamples.freshNode] !! 0%nat = Some MoreSamples.freshNode
  ∧ renderedInstances (node_data MoreSamples.freshNode) = 1
  ∧ ∃ n', addInstance "a" [MoreSamples.freshNode] !! 0%nat = Some n'
          ∧ renderedInstances (node_data n') = 1.
Proof.
  split; [reflexivity|]. split; [reflexivity|].
  destruct (addInstance_counts_from_zero "a" [MoreSamples.freshNode] 0
              MoreSamples.freshNode eq_refl)
    as (n' & Hlookup & _ & _ & _ & Hsame).
  exists n'. split; [exact Hlookup|].
  destruct (Hsame eq_refl) as (_ & Hzero & _). by apply Hzero.
Defined.

Lemma handleToggleMute_twice_witness :
  [MoreSamples.busyNode] !! 0%nat = Some MoreSamples.busyNode
  ∧ node_id MoreSamples.busyNode = "a"
  ∧ ∃ n1 n2,
      handleToggleMute "a" (node_data MoreSamples.busyNode) 1 [MoreSamples.busyNode]
        !! 0%nat = Some n1
      ∧ handleToggleMute "a" (node_data n1) 1
          (handleToggleMute "a" (node_data MoreSamples.busyNode) 1 [MoreSamples.busyNode])
          !! 0%nat = Some n2
      ∧ isKnowledgeMuted (instanceState (node_data n1) 1)
        = negb (isKnowledgeMuted (instanceState (node_data MoreSamples.busyNode) 1))
      ∧ instanceState (node_data n2) 1
        = instanceState (node_data MoreSamples.busyNode) 1.
Proof.
  split; [reflexivity|]. split; [reflexivity|].
  apply (handleToggleMute_twice "a" 1 [MoreSamples.busyNode] 0 MoreSamples.busyNode);
    reflexivity.
Defined.

Lemma readers_follow_teardown_witness :
  getSourceData "a" MoreSamples.wiring (resolvedRegistry MoreSamples.resolvedStore) 0
    = Some tt
  ∧ getSourceData "a" MoreSamples.wiring
      (resolvedRegistry (flushPipelineInstance "r" "source-out-0" MoreSamples.resolvedStore))
      0 = None.
Proof.
  split; [reflexivity|].
  destruct (readers_follow_teardown "a" MoreSamples.wiring MoreSamples.resolvedStore 0)
    as (Hsource & _).
  apply (Hsource (mkEdge "r" (Some "source-out-0") "a" (Some "source-in-0"))
           "source-out-0"); reflexivity.
Defined.

Lemma cached_preview_has_payload_witness :
  reachable Samples.populated
  ∧ slot (previewRegistry Samples.populated) "n" "h" = Some "blob:1"
  ∧ is_Some (slot (reviewerRegistry Samples.populated) "n" "h").
Proof.
  assert (Hrun : run initialState MoreSamples.populatingRun = Some Samples.populated)
    by (vm_compute; reflexivity).
  assert (Hreach : reachable Samples.populated)
    by exact (run_reachable _ _ _ reachable_init Hrun).
  assert (Hurl : slot (previewRegistry Samples.populated) "n" "h" = Some "blob:1")
    by (vm_compute; reflexivity).
  split; [exact Hreach|]. split; [exact Hurl|].
  exact (cached_preview_has_payload Samples.populated Hreach "n" "h" "blob:1" Hurl).
Defined.
